(** * web_scrapping_RSPO.py: the audit-report download loop

    A shallow embedding of [download_audit_reports] (lines 92-176 of
    [src/web_scrapping_RSPO.py]) together with the pieces of the script it
    reads: the target records, the module-level [download_log] and the
    download directory; and of what the script does before it: fetching the
    member list ([download_csv], lines 46-65), emptying the download
    directory (lines 71-77) and selecting the target records (lines 82-86).

    The script drives a browser through Playwright.  The browser, the web
    site and the file system are the environment: they are kept abstract as a
    record of operations over a world type [W], each of which either returns
    a value or raises.  The script itself is written in a small state and
    exception monad that threads the world and [download_log] and collects
    the calls made and the lines printed, in order. *)

From Stdlib Require Import List String Ascii Arith Bool Lia NArith.
From Stdlib Require Import Decimal DecimalString DecimalNat.
Import ListNotations.
Open Scope string_scope.

(** ** Python strings

    A [str] is modelled by [string], one character per code point below 256.
    A literal of the script outside that range is kept as its UTF-8 bytes. *)

Definition nl : string := String "010"%char EmptyString.

(** [str.isspace] on one character, for the code points below 256: the
    ASCII white space, the separators 0x1C-0x1F, NEL and NBSP. *)
Definition isspace (c : ascii) : bool :=
  let n := nat_of_ascii c in
  (Nat.leb 9 n && Nat.leb n 13) || (Nat.leb 28 n && Nat.leb n 32)
  || Nat.eqb n 133 || Nat.eqb n 160.

Fixpoint lstrip (s : string) : string :=
  match s with
  | EmptyString => EmptyString
  | String c s' => if isspace c then lstrip s' else s
  end.

Fixpoint rstrip (s : string) : string :=
  match s with
  | EmptyString => EmptyString
  | String c s' =>
      match rstrip s' with
      | EmptyString => if isspace c then EmptyString else String c EmptyString
      | t => String c t
      end
  end.

(** [s.strip()] *)
Definition strip (s : string) : string := rstrip (lstrip s).

(** [str(n)] for a non-negative integer, as an f-string formats it. *)
Definition str (n : nat) : string := NilEmpty.string_of_uint (Nat.to_uint n).

Fixpoint zeros (n : nat) : string :=
  match n with
  | O => EmptyString
  | S n' => String "0"%char (zeros n')
  end.

Definition zfill (width : nat) (s : string) : string :=
  zeros (width - String.length s) ++ s.

Fixpoint endswith_slash (s : string) : bool :=
  match s with
  | EmptyString => false
  | String c EmptyString => Ascii.eqb c "/"%char
  | String _ s' => endswith_slash s'
  end.

(** [os.path.join(a, b)] of posixpath, for two components. *)
Definition os_path_join (a b : string) : string :=
  match b with
  | String "/"%char _ => b
  | _ =>
      match a with
      | EmptyString => b
      | _ => if endswith_slash a then a ++ b else a ++ "/" ++ b
      end
  end.

(** ** Dates

    [license_start] is a pandas [Timestamp] parsed with ["%d-%b-%Y"], so only
    its calendar date matters.  [strftime('%Y-%m-%d')] pads the month and the
    day to two digits; a [Timestamp] lies between the years 1677 and 2262, so
    the year always has four. *)
Record Timestamp : Type := mkTimestamp { year : nat; month : nat; day : nat }.

Definition strftime (d : Timestamp) : string :=
  zfill 4 (str (year d)) ++ "-" ++ zfill 2 (str (month d)) ++ "-"
  ++ zfill 2 (str (day d)).

(** ** Exceptions

    [except Exception] catches every exception derived from [Exception]
    (Playwright's [TimeoutError] and [Error] among them) and lets the others
    pass: [KeyboardInterrupt], [asyncio.CancelledError], [SystemExit]. *)
Inductive exn : Type :=
| Exception (msg : string)
| Interrupt (msg : string).

Inductive result (A : Type) : Type :=
| Ok (a : A)
| Raise (e : exn).
Arguments Ok {A} a.
Arguments Raise {A} e.

(** ** The manifest

    One dictionary appended to [download_log] (lines 157-162). *)
Record entry : Type := mkEntry {
  Prisma_ID : string;
  License_Start_Date : string;
  File_Type : string;
  Filename : string
}.

(** The dictionary's items, in insertion order. *)
Definition items (e : entry) : list (string * string) :=
  [("Prisma ID", Prisma_ID e); ("License Start Date", License_Start_Date e);
   ("File Type", File_Type e); ("Filename", Filename e)].

(** ** pandas: [DataFrame(list of dicts)] and [to_csv(index=False)]

    The columns of a frame built from a list of dictionaries are the keys in
    order of first appearance; nothing else names them. *)
Record DataFrame : Type := mkDataFrame {
  columns : list string;
  rows : list (list string)
}.

Fixpoint mem (x : string) (l : list string) : bool :=
  match l with
  | [] => false
  | y :: l' => String.eqb x y || mem x l'
  end.

Fixpoint first_seen (seen l : list string) : list string :=
  match l with
  | [] => []
  | x :: l' =>
      if mem x seen then first_seen seen l' else x :: first_seen (x :: seen) l'
  end.

Fixpoint lookup (k : string) (d : list (string * string)) : string :=
  match d with
  | [] => EmptyString
  | (k', v) :: d' => if String.eqb k k' then v else lookup k d'
  end.

Definition pd_DataFrame (log : list entry) : DataFrame :=
  let cols := first_seen [] (flat_map (fun e => map fst (items e)) log) in
  {| columns := cols;
     rows := map (fun e => map (fun c => lookup c (items e)) cols) log |}.

Definition dquote : ascii := ascii_of_nat 34.

Fixpoint needs_quote (s : string) : bool :=
  match s with
  | EmptyString => false
  | String c s' =>
      Ascii.eqb c ","%char || Ascii.eqb c dquote || Ascii.eqb c "010"%char
      || Ascii.eqb c "013"%char || needs_quote s'
  end.

Fixpoint double_quotes (s : string) : string :=
  match s with
  | EmptyString => EmptyString
  | String c s' =>
      if Ascii.eqb c dquote then String c (String c (double_quotes s'))
      else String c (double_quotes s')
  end.

(** csv.QUOTE_MINIMAL *)
Definition csv_field (s : string) : string :=
  if needs_quote s
  then String dquote (double_quotes s ++ String dquote EmptyString)
  else s.

Definition csv_line (fields : list string) : string :=
  String.concat "," (map csv_field fields) ++ nl.

(** The text [df.to_csv(path, index=False)] writes: the line of column names,
    then one line per row. *)
Definition to_csv_text (df : DataFrame) : string :=
  csv_line (columns df) ++ String.concat EmptyString (map csv_line (rows df)).

Definition header_row : string :=
  "Prisma ID,License Start Date,File Type,Filename" ++ nl.

(** ** The environment: Playwright and the file system *)

Definition handle : Type := nat.
Definition download : Type := nat.

Record Playwright (W : Type) : Type := mkPlaywright {
  (* async with async_playwright() as p: entering and leaving *)
  pw_start : W -> result unit * W;
  pw_stop : W -> result unit * W;
  (* p.chromium.launch, browser.new_context, context.new_page *)
  pw_launch : W -> result unit * W;
  pw_new_context : W -> result unit * W;
  pw_new_page : W -> result unit * W;
  (* page.goto(url, timeout) *)
  pw_goto : string -> N -> W -> result unit * W;
  (* page.wait_for_selector(selector, timeout) *)
  pw_wait_for_selector : string -> N -> W -> result unit * W;
  (* page.query_selector(selector): None or an element *)
  pw_query_selector : string -> W -> result (option handle) * W;
  (* page.query_selector_all(selector) *)
  pw_query_selector_all : string -> W -> result (list handle) * W;
  (* element.query_selector_all(selector) *)
  pw_el_query_selector_all : handle -> string -> W -> result (list handle) * W;
  (* element.click(), element.fill(text), element.type(text) *)
  pw_click : handle -> W -> result unit * W;
  pw_fill : handle -> string -> W -> result unit * W;
  pw_type : handle -> string -> W -> result unit * W;
  (* page.keyboard.press(key), page.evaluate(js), page.wait_for_timeout(ms) *)
  pw_press : string -> W -> result unit * W;
  pw_evaluate : string -> W -> result unit * W;
  pw_wait_for_timeout : N -> W -> result unit * W;
  (* element.inner_text() *)
  pw_inner_text : handle -> W -> result string * W;
  (* leaving page.expect_download(timeout) and reading download_info.value *)
  pw_expect_download : N -> W -> result download * W;
  (* download.save_as(path) *)
  pw_save_as : download -> string -> W -> result unit * W;
  (* browser.close() *)
  pw_close : W -> result unit * W;
  (* writing the text of DataFrame.to_csv to a path *)
  fs_write : string -> string -> W -> result unit * W
}.

(** ** What a run does, as seen from outside *)

Inductive role : Type :=
| SearchBox
| FirstRow
| AuditReport (j : nat).

Inductive event : Type :=
| EPrint (line : string)
| ESession (what : string) (r : result unit)
| EGoto (url : string) (r : result unit)
| EWaitFor (selector : string) (r : result unit)
| EQuery (selector : string) (r : result (option handle))
| EQueryAll (selector : string) (r : result (list handle))
| ECells (row : handle) (selector : string) (r : result (list handle))
| EClick (what : role) (h : handle) (r : result unit)
| EInput (what : string) (r : result unit)
| ESettle (ms : N) (r : result unit)
| EInnerText (h : handle) (r : result string)
| EExpectDownload (r : result download)
| ESaveAs (d : download) (path : string) (r : result unit)
| EToCsv (path : string) (text : string) (r : result unit).

(** ** The script's monad

    The state threaded through the script: the world and the module-level
    list [download_log] (line 89), which [download_audit_reports] appends to
    in place. *)
Record state (W : Type) : Type := mkState {
  world : W;
  download_log : list entry
}.
Arguments mkState {W} world download_log.
Arguments world {W} s.
Arguments download_log {W} s.

(** What a computation leaves behind: its value or the exception it raised,
    the state it ended in, and the events it emitted. *)
Record outcome (W A : Type) : Type := Out {
  res : result A;
  final : state W;
  emitted : list event
}.
Arguments Out {W A} res final emitted.
Arguments res {W A} o.
Arguments final {W A} o.
Arguments emitted {W A} o.

Definition M (W A : Type) : Type := state W -> outcome W A.

Definition ret {W A} (a : A) : M W A := fun s => Out (Ok a) s [].

Definition bind {W A B} (m : M W A) (f : A -> M W B) : M W B :=
  fun s =>
    match m s with
    | Out (Ok a) s1 ev1 =>
        match f a s1 with
        | Out r s2 ev2 => Out r s2 (ev1 ++ ev2)
        end
    | Out (Raise e) s1 ev1 => Out (Raise e) s1 ev1
    end.

Declare Scope script_scope.
Delimit Scope script_scope with script.
Notation "x <- m ;; k" := (bind m (fun x => k))
  (at level 100, m at next level, right associativity) : script_scope.
Notation "m ;; k" := (bind m (fun _ => k))
  (at level 100, right associativity) : script_scope.

(** [try: body except Exception as e: handler(e)] *)
Definition try_except {W} (body : M W unit) (handler : string -> M W unit)
  : M W unit :=
  fun s =>
    match body s with
    | Out (Raise (Exception msg)) s1 ev1 =>
        match handler msg s1 with
        | Out r s2 ev2 => Out r s2 (ev1 ++ ev2)
        end
    | o => o
    end.

(** [async with cm: body]: the body runs once the context is entered, and
    the context is left however the body ends. *)
Definition async_with {W} (enter leave : M W unit) (body : M W unit)
  : M W unit :=
  fun s =>
    match enter s with
    | Out (Raise e) s1 ev1 => Out (Raise e) s1 ev1
    | Out (Ok _) s1 ev1 =>
        match body s1 with
        | Out r s2 ev2 =>
            match leave s2 with
            | Out (Ok _) s3 ev3 => Out r s3 (ev1 ++ ev2 ++ ev3)
            | Out (Raise e) s3 ev3 => Out (Raise e) s3 (ev1 ++ ev2 ++ ev3)
            end
        end
    end.

(** [for x in xs: body(x)]; a [continue] in the body is the body returning. *)
Fixpoint for_each {W X} (xs : list X) (body : X -> M W unit) : M W unit :=
  match xs with
  | [] => ret tt
  | x :: xs' => bind (body x) (fun _ => for_each xs' body)
  end.

(** [for j, x in enumerate(xs): body(j, x)], counting from [j]. *)
Fixpoint for_enumerate {W X} (j : nat) (xs : list X)
  (body : nat -> X -> M W unit) : M W unit :=
  match xs with
  | [] => ret tt
  | x :: xs' => bind (body j x) (fun _ => for_enumerate (S j) xs' body)
  end.

(** A call into the environment, recorded with what it answered. *)
Definition call {W A} (op : W -> result A * W) (ev : result A -> event)
  : M W A :=
  fun s =>
    let (r, w) := op (world s) in
    Out r (mkState w (download_log s)) [ev r].

Definition print {W} (line : string) : M W unit :=
  fun s => Out (Ok tt) s [EPrint line].

(** [download_log.append(e)] *)
Definition append {W} (e : entry) : M W unit :=
  fun s => Out (Ok tt) (mkState (world s) (download_log s ++ [e])) [].

Definition read_download_log {W} : M W (list entry) :=
  fun s => Out (Ok (download_log s)) s [].

(** ** The script *)

Definition URL : string :=
  "https://platform.prismabyrspo.org/certificate-registry/certified-growers".

(** Line 37. *)
Definition DOWNLOADS_DIR : string := "....".

(** The f-string of line 153. *)
Definition audit_filename (prisma_id : string) (license_start : Timestamp)
  (j : nat) : string :=
  prisma_id ++ "_" ++ strftime license_start ++ "_audit_" ++ str (j + 1)
  ++ ".pdf".

(** The dictionary of lines 157-162. *)
Definition log_entry (prisma_id : string) (license_start : Timestamp)
  (filename : string) : entry :=
  {| Prisma_ID := prisma_id;
     License_Start_Date := strftime license_start;
     File_Type := "Audit Report";
     Filename := filename |}.

Definition em_dash : string :=
  String (ascii_of_nat 226) (String (ascii_of_nat 128)
    (String (ascii_of_nat 148) EmptyString)).

Section Script.

Context {W : Type} (B : Playwright W).

Local Open Scope script_scope.

(** Lines 150-162: the body of the inner [try]. *)
Definition download_attempt (prisma_id : string) (license_start : Timestamp)
  (j : nat) (el : handle) : M W unit :=
  call (pw_click W B el) (EClick (AuditReport j) el) ;;
  d <- call (pw_expect_download W B 5000%N) EExpectDownload ;;
  let filename := audit_filename prisma_id license_start j in
  let save_path := os_path_join DOWNLOADS_DIR filename in
  call (pw_save_as W B d save_path) (ESaveAs d save_path) ;;
  print ("  Saved: " ++ save_path) ;;
  append (log_entry prisma_id license_start filename).

(** Lines 149-164: one turn of the loop over the Audit Report elements. *)
Definition download_one (prisma_id : string) (license_start : Timestamp)
  (j : nat) (el : handle) : M W unit :=
  try_except (download_attempt prisma_id license_start j el)
    (fun e => print ("  Download failed for " ++ prisma_id ++ ": " ++ e)).

(** Lines 143-164: the detail view is open. *)
Definition audit_reports (prisma_id : string) (license_start : Timestamp)
  : M W unit :=
  elements <- call (pw_query_selector_all W B "text=Audit Report")
                (EQueryAll "text=Audit Report") ;;
  match elements with
  | [] => print ("  No Audit Reports for " ++ prisma_id)
  | _ => for_enumerate 0 elements (download_one prisma_id license_start)
  end.

(** Lines 122-164: the search has been submitted. *)
Definition verify_top_row (prisma_id : string) (license_start : Timestamp)
  : M W unit :=
  rows <- call (pw_query_selector_all W B ".MuiDataGrid-row")
            (EQueryAll ".MuiDataGrid-row") ;;
  match rows with
  | [] => print ("  No search results for " ++ prisma_id)
  | row0 :: _ =>
      first_row_cells <-
        call (pw_el_query_selector_all W B row0 ".MuiDataGrid-cell")
          (ECells row0 ".MuiDataGrid-cell") ;;
      if Nat.ltb (List.length first_row_cells) 6
      then print ("  Unexpected row format for " ++ prisma_id)
      else
        match nth_error first_row_cells 5 with
        | None => fun s => Out (Raise (Exception "list index out of range")) s []
        | Some cell =>
            text <- call (pw_inner_text W B cell) (EInnerText cell) ;;
            let visible_po_id := strip text in
            print ("  PO ID: " ++ visible_po_id) ;;
            if negb (String.eqb visible_po_id prisma_id)
            then print ("  Mismatch " ++ em_dash ++ " skipping " ++ prisma_id)
            else
              call (pw_click W B row0) (EClick FirstRow row0) ;;
              call (pw_wait_for_timeout W B 1500%N) (ESettle 1500%N) ;;
              audit_reports prisma_id license_start
        end
  end.

(** Lines 107-164: the body of the outer [try]. *)
Definition search_and_download (prisma_id : string)
  (license_start : Timestamp) : M W unit :=
  call (pw_wait_for_selector W B "input#search" 10000%N)
    (EWaitFor "input#search") ;;
  search_box <- call (pw_query_selector W B "input#search")
                  (EQuery "input#search") ;;
  match search_box with
  | None => print (" Search bar not found for " ++ prisma_id)
  | Some search_box =>
      call (pw_click W B search_box) (EClick SearchBox search_box) ;;
      call (pw_fill W B search_box EmptyString) (EInput "fill") ;;
      call (pw_type W B search_box prisma_id) (EInput "type") ;;
      call (pw_press W B "Enter") (EInput "press") ;;
      call (pw_evaluate W B "document.activeElement.blur()")
        (EInput "evaluate") ;;
      call (pw_wait_for_timeout W B 2000%N) (ESettle 2000%N) ;;
      verify_top_row prisma_id license_start
  end.

(** Lines 99-168: one turn of the loop over [target_records]. *)
Definition loop_body (row : string * Timestamp) : M W unit :=
  let prisma_id := strip (fst row) in
  let license_start := snd row in
  print (nl ++ " Searching for " ++ prisma_id ++ "...") ;;
  call (pw_goto W B URL 60000%N) (EGoto URL) ;;
  call (pw_wait_for_selector W B ".MuiDataGrid-root" 30000%N)
    (EWaitFor ".MuiDataGrid-root") ;;
  try_except (search_and_download prisma_id license_start)
    (fun e => print ("  Error processing " ++ prisma_id ++ ": " ++ e)).

(** Lines 172-176. *)
Definition save_download_log : M W unit :=
  log <- read_download_log ;;
  let df_log := pd_DataFrame log in
  let log_path := os_path_join DOWNLOADS_DIR "download_log.csv" in
  call (fs_write W B log_path (to_csv_text df_log))
    (EToCsv log_path (to_csv_text df_log)) ;;
  print (nl ++ " Download log saved to: " ++ log_path).

(** Lines 94-96. *)
Definition open_session : M W unit :=
  call (pw_launch W B) (ESession "launch") ;;
  call (pw_new_context W B) (ESession "new_context") ;;
  call (pw_new_page W B) (ESession "new_page").

(** Lines 92-176. *)
Definition download_audit_reports (target_records : list (string * Timestamp))
  : M W unit :=
  async_with (call (pw_start W B) (ESession "start"))
    (call (pw_stop W B) (ESession "stop"))
    (open_session ;;
     for_each target_records loop_body ;;
     call (pw_close W B) (ESession "close") ;;
     save_download_log).

End Script.

(** ** The rows the loop runs over (lines 82-86)

    [target_records] keeps the rows whose date lies in the range, without
    missing values, and [drop_duplicates] keeps the first of equal rows. The
    identifiers are compared as read from the CSV: they are stripped only
    later, at line 99. *)
Definition START_DATE : Timestamp := mkTimestamp 2025 4 1.
Definition END_DATE : Timestamp := mkTimestamp 2025 4 10.

Definition ordinal (d : Timestamp) : nat :=
  (year d * 12 + month d) * 31 + day d.

Definition same_row (a b : string * Timestamp) : bool :=
  String.eqb (fst a) (fst b) && Nat.eqb (year (snd a)) (year (snd b))
  && Nat.eqb (month (snd a)) (month (snd b))
  && Nat.eqb (day (snd a)) (day (snd b)).

Fixpoint drop_duplicates (seen l : list (string * Timestamp))
  : list (string * Timestamp) :=
  match l with
  | [] => []
  | x :: l' =>
      if existsb (same_row x) seen then drop_duplicates seen l'
      else x :: drop_duplicates (x :: seen) l'
  end.


(** ** A scripted browser

    An environment to run the script against: the site's answers are fixed
    in advance, one scene per visit of the listing page.  Every call not
    listed in a scene succeeds. *)
Record scene : Type := mkScene {
  sc_goto : result unit;            (* page.goto *)
  sc_grid : result unit;            (* waiting for .MuiDataGrid-root *)
  sc_rows : list (list string);     (* the result rows, cell by cell *)
  sc_reports : list (result unit * result unit)
    (* per Audit Report element: the download wait, then save_as *)
}.

Record mock : Type := mkMock {
  visit : nat;      (* visits of the listing page so far *)
  clicked : nat;    (* the element clicked last *)
  files : list string  (* paths written, newest first *)
}.

Definition quiet_scene : scene := mkScene (Ok tt) (Ok tt) [] [].

Definition current (script : list scene) (m : mock) : scene :=
  nth (visit m - 1) script quiet_scene.

Definition fine (m : mock) : result unit * mock := (Ok tt, m).

(** Handles: 1 is the search box, [10 + j] the j-th Audit Report element,
    [100 + i] the i-th result row, [1000 + 50 * i + k] its k-th cell. *)
Definition scripted (script : list scene) : Playwright mock :=
  {| pw_start := fine;
     pw_stop := fine;
     pw_launch := fine;
     pw_new_context := fine;
     pw_new_page := fine;
     pw_goto := fun _ _ m =>
       let m' := mkMock (S (visit m)) 0 (files m) in
       (sc_goto (current script m'), m');
     pw_wait_for_selector := fun sel _ m =>
       if String.eqb sel ".MuiDataGrid-root"
       then (sc_grid (current script m), m) else (Ok tt, m);
     pw_query_selector := fun _ m => (Ok (Some 1), m);
     pw_query_selector_all := fun sel m =>
       if String.eqb sel ".MuiDataGrid-row"
       then (Ok (seq 100 (List.length (sc_rows (current script m)))), m)
       else if String.eqb sel "text=Audit Report"
       then (Ok (seq 10 (List.length (sc_reports (current script m)))), m)
       else (Ok [], m);
     pw_el_query_selector_all := fun h _ m =>
       (Ok (seq (1000 + 50 * (h - 100))
              (List.length (nth (h - 100) (sc_rows (current script m)) []))), m);
     pw_click := fun h m => (Ok tt, mkMock (visit m) h (files m));
     pw_fill := fun _ _ => fine;
     pw_type := fun _ _ => fine;
     pw_press := fun _ => fine;
     pw_evaluate := fun _ => fine;
     pw_wait_for_timeout := fun _ => fine;
     pw_inner_text := fun h m =>
       (Ok (nth ((h - 1000) mod 50)
              (nth ((h - 1000) / 50) (sc_rows (current script m)) [])
              EmptyString), m);
     pw_expect_download := fun _ m =>
       match fst (nth (clicked m - 10) (sc_reports (current script m))
                    (Ok tt, Ok tt)) with
       | Ok _ => (Ok (clicked m - 10), m)
       | Raise e => (Raise e, m)
       end;
     pw_save_as := fun d path m =>
       match snd (nth d (sc_reports (current script m)) (Ok tt, Ok tt)) with
       | Ok _ => (Ok tt, mkMock (visit m) (clicked m) (path :: files m))
       | Raise e => (Raise e, m)
       end;
     pw_close := fine;
     fs_write := fun path _ m =>
       (Ok tt, mkMock (visit m) (clicked m) (path :: files m)) |}.

Definition fresh : state mock := mkState (mkMock 0 0 []) [].

Definition row_of (cell5 : string) : list string :=
  ["1"; "Grower"; "Country"; "Active"; "2025"; cell5; "more"].

Definition april (d : nat) : Timestamp := mkTimestamp 2025 4 d.

Definition timeout_error : exn := Exception "Timeout 60000ms exceeded.".
Definition keyboard_interrupt : exn := Interrupt "KeyboardInterrupt".

(** Scenes used below. *)
Definition found (id : string) (reports : list (result unit * result unit))
  : scene :=
  mkScene (Ok tt) (Ok tt) [row_of id] reports.

Definition saved : result unit * result unit := (Ok tt, Ok tt).

(** ** Reading a run's events *)

(** The paths of the files [save_as] wrote, in order. *)
Fixpoint saved_paths (evs : list event) : list string :=
  match evs with
  | [] => []
  | ESaveAs _ path (Ok _) :: evs' => path :: saved_paths evs'
  | _ :: evs' => saved_paths evs'
  end.

(** The manifests written: path and text of every [to_csv] that returned. *)
Fixpoint manifests (evs : list event) : list (string * string) :=
  match evs with
  | [] => []
  | EToCsv path text (Ok _) :: evs' => (path, text) :: manifests evs'
  | _ :: evs' => manifests evs'
  end.

(** The events of the loop over the Audit Report elements. *)
Definition retrieval (e : event) : bool :=
  match e with
  | EPrint _ | EClick (AuditReport _) _ _ | EExpectDownload _ | ESaveAs _ _ _ =>
      true
  | _ => false
  end.

(** The events of the loop over the target records: neither the session
    nor the manifest. *)
Definition within_records (e : event) : bool :=
  match e with
  | ESession _ _ | EToCsv _ _ _ => false
  | _ => true
  end.

(** The result row is opened by the click of line 140. *)
Definition opens_row (e : event) : bool :=
  match e with
  | EClick FirstRow _ _ => true
  | _ => false
  end.

(** A download is triggered by the click of line 151. *)
Definition triggers_download (e : event) : bool :=
  match e with
  | EClick (AuditReport _) _ _ => true
  | _ => false
  end.

(** An attachment: identifier, formatted date, index counted from 1. *)
Definition triple : Type := (string * string * nat)%type.

Definition name_of (t : triple) : string :=
  let '(id, date, n) := t in id ++ "_" ++ date ++ "_audit_" ++ str n ++ ".pdf".

Definition entry_of (t : triple) : entry :=
  let '(id, date, n) := t in
  {| Prisma_ID := id; License_Start_Date := date;
     File_Type := "Audit Report"; Filename := name_of t |}.

Definition path_of (t : triple) : string :=
  os_path_join DOWNLOADS_DIR (name_of t).

(** What identifies a target record in the manifest. *)
Definition key (row : string * Timestamp) : string * string :=
  (strip (fst row), strftime (snd row)).

Definition log_path : string := os_path_join DOWNLOADS_DIR "download_log.csv".

(** The attachments of a run: the indices saved for each record, paired
    with the record's key. *)
Fixpoint triples (records : list (string * Timestamp)) (nss : list (list nat))
  {struct nss} : list triple :=
  match nss, records with
  | ns :: nss', row :: records' =>
      map (fun n => (fst (key row), snd (key row), n)) ns
      ++ triples records' nss'
  | _, _ => []
  end.



Definition nothing_found : list scene := [quiet_scene].

Definition two_records : list (string * Timestamp) :=
  [("PRSM-100", april 2); ("PRSM-200", april 3)].

Definition interrupted_site : list scene :=
  [found "PRSM-100" [saved];
   found "PRSM-200" [(Raise keyboard_interrupt, Ok tt)]].

Definition navigation_times_out : list scene :=
  [mkScene (Raise timeout_error) (Ok tt) [] []; found "PRSM-200" [saved]].

Definition grid_times_out : list scene :=
  [mkScene (Ok tt) (Raise timeout_error) [] []; found "PRSM-200" [saved]].

Definition both_found : list scene :=
  [found "PRSM-100" [saved; saved]; found "PRSM-200" [saved]].

(** The second of three Audit Report elements times out. *)
Definition flaky_site : list scene :=
  [found "PRSM-100" [saved; (Raise timeout_error, Ok tt); saved]].

(** The listing page visited once and its first row opened. *)
Definition detail_view : state mock := mkState (mkMock 1 100 []) [].

Definition no_reports_site : list scene :=
  [found "PRSM-100" []; found "PRSM-200" [saved]].

(** The manifest is written by the [to_csv] of line 175. *)
Definition writes_manifest (e : event) : bool :=
  match e with
  | EToCsv _ _ _ => true
  | _ => false
  end.

(** A cell's text is read by the [inner_text] of line 132. *)
Definition reads_text (e : event) : bool :=
  match e with
  | EInnerText _ _ => true
  | _ => false
  end.

(** ** Fetching the member list (lines 46-65)

    [download_csv] opens a session of its own, clicks the export control of
    the listing page and saves the download under the name the site
    suggests.  Nothing in it is guarded by a [try]. *)

(** Line 41. *)
Definition DOWNLOADS_DIR_CSV : string := "....".

Definition EXPORT_CONTROL : string := "div:text('Download as CSV')".

(** What [download_csv] asks of the page beyond [Playwright]. *)
Record CsvExport (W : Type) : Type := mkCsvExport {
  (* page.click(selector) *)
  pw_page_click : string -> W -> result unit * W;
  (* download.suggested_filename *)
  pw_suggested_filename : download -> W -> string
}.

(** [async with cm: body] around a body that returns a value. *)
Definition async_with_value {W A} (enter leave : M W unit) (body : M W A)
  : M W A :=
  fun s =>
    match enter s with
    | Out (Raise e) s1 ev1 => Out (Raise e) s1 ev1
    | Out (Ok _) s1 ev1 =>
        match body s1 with
        | Out r s2 ev2 =>
            match leave s2 with
            | Out (Ok _) s3 ev3 => Out r s3 (ev1 ++ ev2 ++ ev3)
            | Out (Raise e) s3 ev3 => Out (Raise e) s3 (ev1 ++ ev2 ++ ev3)
            end
        end
    end.

(** Reading an attribute of the world: no call is made. *)
Definition read {W A} (f : W -> A) : M W A :=
  fun s => Out (Ok (f (world s))) s [].

Section Csv.

Context {W : Type} (B : Playwright W) (X : CsvExport W).

Local Open Scope script_scope.

(** Lines 52-65: the session is open.  [expect_download()] is given no
    timeout: Playwright's default of 30 s applies. *)
Definition export_csv : M W string :=
  call (pw_goto W B URL 60000%N) (EGoto URL) ;;
  call (pw_wait_for_selector W B EXPORT_CONTROL 10000%N)
    (EWaitFor EXPORT_CONTROL) ;;
  call (pw_page_click W X EXPORT_CONTROL) (EInput "click") ;;
  d <- call (pw_expect_download W B 30000%N) EExpectDownload ;;
  csv_filename <- read (pw_suggested_filename W X d) ;;
  let csv_path := os_path_join DOWNLOADS_DIR_CSV csv_filename in
  call (pw_save_as W B d csv_path) (ESaveAs d csv_path) ;;
  print (" CSV downloaded to: " ++ csv_path) ;;
  call (pw_close W B) (ESession "close") ;;
  ret csv_path.

(** Lines 46-65. *)
Definition download_csv : M W string :=
  async_with_value (call (pw_start W B) (ESession "start"))
    (call (pw_stop W B) (ESession "stop"))
    (open_session B ;; export_csv).

End Csv.

(** ** Emptying the download directory (lines 71-77) *)

Record FileSystem (W : Type) : Type := mkFileSystem {
  (* os.listdir(path) *)
  os_listdir : string -> W -> result (list string) * W;
  (* os.path.isfile(path): False where the path cannot be examined *)
  os_path_isfile : string -> W -> bool;
  (* os.remove(path) *)
  os_remove : string -> W -> result unit * W
}.

Inductive fs_event : Type :=
| FsListdir (dir : string) (r : result (list string))
| FsIsfile (path : string) (r : bool)
| FsRemove (path : string) (r : result unit)
| FsPrint (line : string).

(** What the loop leaves behind: its result, the world, the calls made. *)
Record fs_outcome (W : Type) : Type := FsOut {
  fs_res : result unit;
  fs_final : W;
  fs_emitted : list fs_event
}.
Arguments FsOut {W} fs_res fs_final fs_emitted.
Arguments fs_res {W} _.
Arguments fs_final {W} _.
Arguments fs_emitted {W} _.

Section Cleaning.

Context {W : Type} (F : FileSystem W).

(** Lines 72-77: one turn of the loop, with its [try]. *)
Definition remove_if_file (filename : string) (w : W) : fs_outcome W :=
  let file_path := os_path_join DOWNLOADS_DIR filename in
  if os_path_isfile W F file_path w
  then
    match os_remove W F file_path w with
    | (Ok _, w1) =>
        FsOut (Ok tt) w1 [FsIsfile file_path true; FsRemove file_path (Ok tt)]
    | (Raise (Exception msg), w1) =>
        FsOut (Ok tt) w1
          [FsIsfile file_path true;
           FsRemove file_path (Raise (Exception msg));
           FsPrint ("Could not delete " ++ file_path ++ ": " ++ msg)]
    | (Raise e, w1) =>
        FsOut (Raise e) w1
          [FsIsfile file_path true; FsRemove file_path (Raise e)]
    end
  else FsOut (Ok tt) w [FsIsfile file_path false].

Fixpoint remove_files (names : list string) (w : W) : fs_outcome W :=
  match names with
  | [] => FsOut (Ok tt) w []
  | filename :: names' =>
      match remove_if_file filename w with
      | FsOut (Raise e) w1 ev1 => FsOut (Raise e) w1 ev1
      | FsOut (Ok _) w1 ev1 =>
          match remove_files names' w1 with
          | FsOut r w2 ev2 => FsOut r w2 (ev1 ++ ev2)%list
          end
      end
  end.

(** Lines 71-77. *)
Definition clean_downloads (w : W) : fs_outcome W :=
  match os_listdir W F DOWNLOADS_DIR w with
  | (Raise e, w1) => FsOut (Raise e) w1 [FsListdir DOWNLOADS_DIR (Raise e)]
  | (Ok names, w1) =>
      match remove_files names w1 with
      | FsOut r w2 ev => FsOut r w2 (FsListdir DOWNLOADS_DIR (Ok names) :: ev)
      end
  end.

End Cleaning.

(** The paths [os.path.isfile] examined, with its answers, and the paths
    [os.remove] was called on. *)
Fixpoint examined (evs : list fs_event) : list (string * bool) :=
  match evs with
  | [] => []
  | FsIsfile path b :: evs' => (path, b) :: examined evs'
  | _ :: evs' => examined evs'
  end.

Fixpoint remove_calls (evs : list fs_event) : list string :=
  match evs with
  | [] => []
  | FsRemove path _ :: evs' => path :: remove_calls evs'
  | _ :: evs' => remove_calls evs'
  end.

(** A directory to run the loop on: each entry is a regular file or not,
    and removable or not. *)
Record dir_entry : Type := mkDirEntry {
  de_name : string;
  de_file : bool;
  de_locked : bool
}.

Definition at_path (path : string) (e : dir_entry) : bool :=
  String.eqb path (os_path_join DOWNLOADS_DIR (de_name e)).

Definition disk : FileSystem (list dir_entry) :=
  {| os_listdir := fun _ w => (Ok (map de_name w), w);
     os_path_isfile := fun path w =>
       existsb (fun e => at_path path e && de_file e) w;
     os_remove := fun path w =>
       if existsb (fun e => at_path path e && de_locked e) w
       then (Raise (Exception "[Errno 13] Permission denied"), w)
       else (Ok tt, filter (fun e => negb (at_path path e)) w) |}.

Definition some_downloads : list dir_entry :=
  [mkDirEntry "growers.csv" true false;
   mkDirEntry "archive" false false;
   mkDirEntry "open.pdf" true true;
   mkDirEntry "old_audit_1.pdf" true false].

(** ** The frame read from the CSV (lines 80-86)

    After [to_datetime(..., errors='coerce')] a row holds an identifier or
    NaN and a date or NaT.  A comparison with NaT is false, so the mask of
    lines 83-84 drops the rows without a date; [dropna] drops those without
    an identifier. *)
Definition csv_row : Type := (option string * option Timestamp)%type.

Definition in_range (d : Timestamp) : bool :=
  Nat.leb (ordinal START_DATE) (ordinal d)
  && Nat.leb (ordinal d) (ordinal END_DATE).

Definition filtered_df (df : list csv_row) : list csv_row :=
  filter (fun r => match snd r with
                   | Some d => in_range d
                   | None => false
                   end) df.

Fixpoint dropna (df : list csv_row) : list (string * Timestamp) :=
  match df with
  | [] => []
  | (Some id, Some d) :: df' => (id, d) :: dropna df'
  | _ :: df' => dropna df'
  end.

(** Line 86. *)
Definition target_records (df : list csv_row) : list (string * Timestamp) :=
  drop_duplicates [] (dropna (filtered_df df)).

(** A calendar date. *)
Definition valid_date (d : Timestamp) : Prop :=
  1 <= month d <= 12 /\ 1 <= day d <= 31.

Definition sample_df : list csv_row :=
  [(Some "PRSM-100", Some (april 2));
   (None, Some (april 3));
   (Some "PRSM-300", None);
   (Some "PRSM-400", Some (mkTimestamp 2025 4 11));
   (Some "PRSM-100", Some (april 2));
   (Some "PRSM-500", Some (april 10))].

(** A call that raised. *)
Definition failed (e : event) : bool :=
  match e with
  | EPrint _ => false
  | ESession _ (Raise _) | EGoto _ (Raise _) | EWaitFor _ (Raise _)
  | EQuery _ (Raise _) | EQueryAll _ (Raise _) | ECells _ _ (Raise _)
  | EClick _ _ (Raise _) | EInput _ (Raise _) | ESettle _ (Raise _)
  | EInnerText _ (Raise _) | EExpectDownload (Raise _)
  | ESaveAs _ _ (Raise _) | EToCsv _ _ (Raise _) => true
  | _ => false
  end.

(** The export control of a scripted site: the download is the CSV, under
    the name given. *)
Definition exporting (name : string) : CsvExport mock :=
  {| pw_page_click := fun _ m => (Ok tt, mkMock (visit m) 10 (files m));
     pw_suggested_filename := fun _ _ => name |}.

(** ** Reading a run's events, continued *)

(** A click or a keyboard action on the page. *)
Definition touches_page (e : event) : bool :=
  match e with
  | EClick _ _ _ | EInput _ _ => true
  | _ => false
  end.

(** The listing page is loaded by the [goto] of line 103. *)
Definition navigates (e : event) : bool :=
  match e with
  | EGoto _ _ => true
  | _ => false
  end.

Definition navigations (evs : list event) : nat :=
  List.length (filter navigates evs).

(** Entering, opening, closing or leaving the session. *)
Definition about_session (e : event) : bool :=
  match e with
  | ESession _ _ => true
  | _ => false
  end.

(** [os.path.join] drops the directory before a component that starts
    with a slash. *)
Definition absolute (s : string) : bool :=
  match s with
  | String "/"%char _ => true
  | _ => false
  end.

(** One line of the manifest. *)
Definition entry_line (e : entry) : string :=
  csv_line [Prisma_ID e; License_Start_Date e; File_Type e; Filename e].

(** A scripted site whose page has no search box. *)
Definition without_search_box (script : list scene) : Playwright mock :=
  let B := scripted script in
  {| pw_start := pw_start mock B;
     pw_stop := pw_stop mock B;
     pw_launch := pw_launch mock B;
     pw_new_context := pw_new_context mock B;
     pw_new_page := pw_new_page mock B;
     pw_goto := pw_goto mock B;
     pw_wait_for_selector := pw_wait_for_selector mock B;
     pw_query_selector := fun _ m => (Ok None, m);
     pw_query_selector_all := pw_query_selector_all mock B;
     pw_el_query_selector_all := pw_el_query_selector_all mock B;
     pw_click := pw_click mock B;
     pw_fill := pw_fill mock B;
     pw_type := pw_type mock B;
     pw_press := pw_press mock B;
     pw_evaluate := pw_evaluate mock B;
     pw_wait_for_timeout := pw_wait_for_timeout mock B;
     pw_inner_text := pw_inner_text mock B;
     pw_expect_download := pw_expect_download mock B;
     pw_save_as := pw_save_as mock B;
     pw_close := pw_close mock B;
     fs_write := fs_write mock B |}.

(** A scripted site on a machine where the browser cannot be launched. *)
Definition launch_error : exn := Exception "Executable doesn't exist".

Definition without_browser (script : list scene) : Playwright mock :=
  let B := scripted script in
  {| pw_start := pw_start mock B;
     pw_stop := pw_stop mock B;
     pw_launch := fun m => (Raise launch_error, m);
     pw_new_context := pw_new_context mock B;
     pw_new_page := pw_new_page mock B;
     pw_goto := pw_goto mock B;
     pw_wait_for_selector := pw_wait_for_selector mock B;
     pw_query_selector := pw_query_selector mock B;
     pw_query_selector_all := pw_query_selector_all mock B;
     pw_el_query_selector_all := pw_el_query_selector_all mock B;
     pw_click := pw_click mock B;
     pw_fill := pw_fill mock B;
     pw_type := pw_type mock B;
     pw_press := pw_press mock B;
     pw_evaluate := pw_evaluate mock B;
     pw_wait_for_timeout := pw_wait_for_timeout mock B;
     pw_inner_text := pw_inner_text mock B;
     pw_expect_download := pw_expect_download mock B;
     pw_save_as := pw_save_as mock B;
     pw_close := pw_close mock B;
     fs_write := fs_write mock B |}.

(** The state a first call left: one entry in [download_log]. *)
Definition after_one_call : state mock :=
  mkState (mkMock 0 0 []) [entry_of ("PRSM-001", "2025-04-01", 1)].

(** The number a string of decimal digits stands for. *)
Fixpoint value_of (acc : nat) (s : string) : nat :=
  match s with
  | EmptyString => acc
  | String c s' => value_of (10 * acc + (nat_of_ascii c - 48)) s'
  end.

(** [zfill] keeps the number and gives it the width asked for. *)
Definition pads_to (width : nat) (n : nat) : bool :=
  Nat.eqb (value_of 0 (zfill width (str n))) n
  && Nat.eqb (String.length (zfill width (str n))) width.

(** ** The candidates of a record, one by one

    What became of one Audit Report element in the loop of lines 148-164:
    the file was saved, or [el.click()], the wait for the download, or
    [save_as] raised. *)
Inductive fate : Type :=
| Saved (d : download)
| SaveFailed (d : download) (e : exn)
| NoDownload (e : exn)
| ClickFailed (e : exn).

Definition raised (f : fate) : option exn :=
  match f with
  | Saved _ => None
  | SaveFailed _ e | NoDownload e | ClickFailed e => Some e
  end.

(** The exception [except Exception] (line 163) lets pass, if any. *)
Definition passes (f : fate) : option exn :=
  match raised f with
  | Some (Interrupt m) => Some (Interrupt m)
  | _ => None
  end.

(** What the handler of lines 163-164 prints. *)
Definition handled (prisma_id : string) (e : exn) : list event :=
  match e with
  | Exception msg =>
      [EPrint ("  Download failed for " ++ prisma_id ++ ": " ++ msg)]
  | Interrupt _ => []
  end.

(** The path the candidate at position [j], counted from 0, is saved
    under. *)
Definition candidate_path (prisma_id date : string) (j : nat) : string :=
  os_path_join DOWNLOADS_DIR
    (prisma_id ++ "_" ++ date ++ "_audit_" ++ str (j + 1) ++ ".pdf").

(** The calls and lines of one turn of the loop, given its fate. *)
Definition attempt_trace (prisma_id date : string) (j : nat) (el : handle)
  (f : fate) : list event :=
  match f with
  | Saved d =>
      [EClick (AuditReport j) el (Ok tt); EExpectDownload (Ok d);
       ESaveAs d (candidate_path prisma_id date j) (Ok tt);
       EPrint ("  Saved: " ++ candidate_path prisma_id date j)]
  | SaveFailed d e =>
      [EClick (AuditReport j) el (Ok tt); EExpectDownload (Ok d);
       ESaveAs d (candidate_path prisma_id date j) (Raise e)]
      ++ handled prisma_id e
  | NoDownload e =>
      [EClick (AuditReport j) el (Ok tt); EExpectDownload (Raise e)]
      ++ handled prisma_id e
  | ClickFailed e =>
      [EClick (AuditReport j) el (Raise e)] ++ handled prisma_id e
  end%list.

(** The turns of the loop over [els], the first at position [j]. *)
Fixpoint candidates_trace (prisma_id date : string) (j : nat)
  (els : list handle) (fates : list fate) : list event :=
  match els, fates with
  | el :: els', f :: fates' =>
      (attempt_trace prisma_id date j el f
       ++ candidates_trace prisma_id date (S j) els' fates')%list
  | _, _ => []
  end.

(** The entries appended: one for each candidate saved, under the name of
    its position. *)
Fixpoint saved_entries (prisma_id date : string) (j : nat)
  (fates : list fate) : list entry :=
  match fates with
  | [] => []
  | Saved _ :: fates' =>
      entry_of (prisma_id, date, j + 1) :: saved_entries prisma_id date (S j) fates'
  | _ :: fates' => saved_entries prisma_id date (S j) fates'
  end.

(** Every element has its fate, in order, up to the first exception that
    passes the handler, if there is one. *)
Fixpoint runs_through (els : list handle) (fates : list fate) : bool :=
  match els, fates with
  | [], [] => true
  | _ :: els', f :: fates' =>
      match passes f with
      | Some _ => match fates' with [] => true | _ => false end
      | None => runs_through els' fates'
      end
  | _, _ => false
  end.

(** How the loop ends. *)
Fixpoint outcome_of (fates : list fate) : result unit :=
  match fates with
  | [] => Ok tt
  | f :: fates' =>
      match passes f with
      | Some e => Raise e
      | None => outcome_of fates'
      end
  end.

(** The query of line 143. *)
Definition asks_for_reports (e : event) : bool :=
  match e with
  | EQueryAll selector _ => String.eqb selector "text=Audit Report"
  | _ => false
  end.

(** What follows the query of line 143 when it returned [elements]. *)
Definition reports_trace (prisma_id date : string) (elements : list handle)
  (fates : list fate) : list event :=
  match elements with
  | [] => [EPrint ("  No Audit Reports for " ++ prisma_id)]
  | _ => candidates_trace prisma_id date 0 elements fates
  end.

(** ** A row as [iterrows] yields it

    The identifier is a [str] when pandas read the column as text; a
    column of numbers gives values without a [strip] method, and line 99
    raises [AttributeError] before anything else is done. *)
Inductive cell : Type :=
| Text (s : string)
| NotText (type_name : string).

Definition attribute_error (type_name : string) : exn :=
  Exception ("'" ++ type_name ++ "' object has no attribute 'strip'").

(** Lines 99-168, with the identifier as read from the frame. *)
Definition loop_turn {W} (B : Playwright W) (row : cell * Timestamp)
  : M W unit :=
  match fst row with
  | Text raw => loop_body B (raw, snd row)
  | NotText type_name => fun s => Out (Raise (attribute_error type_name)) s []
  end.

(** The calls and lines of a turn that stand before the query of line 143:
    no download is triggered or awaited, nothing is saved. *)
Definition before_reports (e : event) : bool :=
  match e with
  | EClick (AuditReport _) _ _ | EExpectDownload _ | ESaveAs _ _ _ => false
  | EQueryAll selector _ => negb (String.eqb selector "text=Audit Report")
  | _ => true
  end.

(** ** From the member list to the target records (lines 67-86)

    The script awaits [download_csv], empties the download directory, and
    only then reads the file [download_csv] saved.  [read_csv] stands for
    lines 80-81: the frame read, with the dates parsed. *)
Inductive step : Type :=
| Browser (e : event)
| Files (e : fs_event)
| ReadCsv (path : string) (r : result unit).

Record prepared (W : Type) : Type := Prep {
  p_res : result (list (string * Timestamp));
  p_final : state W;
  p_steps : list step
}.
Arguments Prep {W} p_res p_final p_steps.
Arguments p_res {W} _.
Arguments p_final {W} _.
Arguments p_steps {W} _.

Definition ok_or_not {A} (r : result A) : result unit :=
  match r with
  | Ok _ => Ok tt
  | Raise e => Raise e
  end.

Section Prepare.

Context {W : Type} (B : Playwright W) (X : CsvExport W) (F : FileSystem W)
  (read_csv : string -> W -> result (list csv_row) * W).

Definition prepare_targets (s : state W) : prepared W :=
  match download_csv B X s with
  | Out (Raise e) s1 ev1 => Prep (Raise e) s1 (map Browser ev1)
  | Out (Ok csv_file_path) s1 ev1 =>
      match clean_downloads F (world s1) with
      | FsOut (Raise e) w2 ev2 =>
          Prep (Raise e) (mkState w2 (download_log s1))
            (map Browser ev1 ++ map Files ev2)%list
      | FsOut (Ok _) w2 ev2 =>
          match read_csv csv_file_path w2 with
          | (r, w3) =>
              Prep (match r with
                    | Ok df => Ok (target_records df)
                    | Raise e => Raise e
                    end)
                (mkState w3 (download_log s1))
                (map Browser ev1 ++ map Files ev2
                 ++ [ReadCsv csv_file_path (ok_or_not r)])%list
          end
      end
  end.

End Prepare.

(** A machine to run lines 67-86 on: a scripted browser and a folder.  A
    download saved becomes a regular file of the folder, under the last
    component of its path. *)
Record office : Type := mkOffice {
  browser_state : mock;
  folder : list dir_entry
}.

Fixpoint has_slash (s : string) : bool :=
  match s with
  | EmptyString => false
  | String c s' => Ascii.eqb c "/"%char || has_slash s'
  end.

Fixpoint basename (s : string) : string :=
  match s with
  | EmptyString => EmptyString
  | String c s' =>
      if has_slash s' then basename s'
      else if Ascii.eqb c "/"%char then s' else s
  end.

Definition in_browser {A} (op : mock -> result A * mock) (o : office)
  : result A * office :=
  let (r, m) := op (browser_state o) in (r, mkOffice m (folder o)).

Definition in_folder {A} (op : list dir_entry -> result A * list dir_entry)
  (o : office) : result A * office :=
  let (r, w) := op (folder o) in (r, mkOffice (browser_state o) w).

Definition office_browser (script : list scene) : Playwright office :=
  let B := scripted script in
  {| pw_start := in_browser (pw_start mock B);
     pw_stop := in_browser (pw_stop mock B);
     pw_launch := in_browser (pw_launch mock B);
     pw_new_context := in_browser (pw_new_context mock B);
     pw_new_page := in_browser (pw_new_page mock B);
     pw_goto := fun url t => in_browser (pw_goto mock B url t);
     pw_wait_for_selector := fun sel t =>
       in_browser (pw_wait_for_selector mock B sel t);
     pw_query_selector := fun sel => in_browser (pw_query_selector mock B sel);
     pw_query_selector_all := fun sel =>
       in_browser (pw_query_selector_all mock B sel);
     pw_el_query_selector_all := fun h sel =>
       in_browser (pw_el_query_selector_all mock B h sel);
     pw_click := fun h => in_browser (pw_click mock B h);
     pw_fill := fun h t => in_browser (pw_fill mock B h t);
     pw_type := fun h t => in_browser (pw_type mock B h t);
     pw_press := fun k => in_browser (pw_press mock B k);
     pw_evaluate := fun js => in_browser (pw_evaluate mock B js);
     pw_wait_for_timeout := fun t => in_browser (pw_wait_for_timeout mock B t);
     pw_inner_text := fun h => in_browser (pw_inner_text mock B h);
     pw_expect_download := fun t => in_browser (pw_expect_download mock B t);
     pw_save_as := fun d path o =>
       match pw_save_as mock B d path (browser_state o) with
       | (Ok _, m) =>
           (Ok tt,
            mkOffice m (folder o ++ [mkDirEntry (basename path) true false]))
       | (Raise e, m) => (Raise e, mkOffice m (folder o))
       end;
     pw_close := in_browser (pw_close mock B);
     fs_write := fun path text => in_browser (fs_write mock B path text) |}.

Definition office_export (name : string) : CsvExport office :=
  {| pw_page_click := fun sel =>
       in_browser (pw_page_click mock (exporting name) sel);
     pw_suggested_filename := fun _ _ => name |}.

Definition office_files : FileSystem office :=
  {| os_listdir := fun dir => in_folder (os_listdir _ disk dir);
     os_path_isfile := fun path o => os_path_isfile _ disk path (folder o);
     os_remove := fun path => in_folder (os_remove _ disk path) |}.

Definition file_not_found (path : string) : exn :=
  Exception ("[Errno 2] No such file or directory: '" ++ path ++ "'").

Definition office_read_csv (path : string) (o : office)
  : result (list csv_row) * office :=
  if os_path_isfile _ disk path (folder o)
  then (Ok sample_df, o)
  else (Raise (file_not_found path), o).

Definition empty_office : state office :=
  mkState (mkOffice (mkMock 0 0 []) []) [].

(** * Properties *)

Open Scope list_scope.

Local Arguments String.append : simpl never.
Local Arguments strip : simpl never.
Local Arguments os_path_join : simpl never.
Local Arguments audit_filename : simpl never.

Lemma saved_paths_app (a b : list event) :
  saved_paths (a ++ b) = saved_paths a ++ saved_paths b.
Proof.
  induction a as [|e a IH]; simpl; [reflexivity|].
  destruct e; try assumption.
  destruct r; [simpl; f_equal|]; assumption.
Qed.

Lemma manifests_app (a b : list event) :
  manifests (a ++ b) = manifests a ++ manifests b.
Proof.
  induction a as [|e a IH]; simpl; [reflexivity|].
  destruct e; try assumption.
  destruct r; [simpl; f_equal|]; assumption.
Qed.

Ltac crunch :=
  repeat (simpl in *;
          match goal with
          | |- context [match ?x with _ => _ end] =>
              lazymatch x with
              | context [match _ with _ => _ end] => fail
              | _ => let E := fresh "E" in destruct x eqn:E
              end
          end).

Ltac split_in H :=
  repeat match type of H with
         | In _ (_ :: _) => destruct H as [H|H]; [try discriminate H|]
         | In _ (_ ++ _) => apply in_app_or in H; destruct H as [H|H]
         | In _ [] => destruct H
         | _ \/ _ => destruct H as [H|H]; [try discriminate H|]
         | False => destruct H
         end.

(** ** Strings *)

Lemma append_assoc (a b c : string) :
  ((a ++ b) ++ c = a ++ (b ++ c))%string.
Proof.
  induction a as [|x a IH]; simpl; [reflexivity|].
  unfold String.append in *; fold String.append in *. simpl. now rewrite IH.
Qed.

Lemma append_cons (x : ascii) (a b : string) :
  (String x a ++ b = String x (a ++ b))%string.
Proof. reflexivity. Qed.

Lemma append_inv_head (a b c : string) :
  (a ++ b = a ++ c)%string -> b = c.
Proof.
  induction a as [|x a IH]; intros H.
  - exact H.
  - rewrite !append_cons in H. injection H as H. auto.
Qed.

Lemma length_append (a b : string) :
  String.length (a ++ b)%string = String.length a + String.length b.
Proof.
  induction a as [|x a IH]; [reflexivity|].
  rewrite append_cons. simpl. now rewrite IH.
Qed.

Lemma append_inv_tail (a b c : string) :
  (a ++ c = b ++ c)%string -> a = b.
Proof.
  revert b. induction a as [|x a IH]; intros [|y b] H.
  - reflexivity.
  - apply (f_equal String.length) in H.
    rewrite !length_append in H. simpl in H. lia.
  - apply (f_equal String.length) in H.
    rewrite !length_append in H. simpl in H. lia.
  - rewrite !append_cons in H. injection H as Hx H.
    subst. f_equal. auto.
Qed.

Lemma prefix_append (a b : string) : String.prefix a (a ++ b)%string = true.
Proof.
  induction a as [|x a IH]; [destruct b; reflexivity|].
  rewrite append_cons. simpl.
  destruct (ascii_dec x x) as [_|H]; [exact IH | now destruct H].
Qed.

Lemma str_inj (n m : nat) : str n = str m -> n = m.
Proof.
  unfold str. intros H.
  apply DecimalNat.Unsigned.to_uint_inj.
  apply (f_equal NilEmpty.uint_of_string) in H.
  rewrite !NilEmpty.usu in H. now injection H.
Qed.


Lemma path_of_entry (t : triple) :
  os_path_join DOWNLOADS_DIR (Filename (entry_of t)) = path_of t.
Proof. destruct t as [[id date] n]. reflexivity. Qed.

Lemma name_of_pdf (t : triple) : exists stem, name_of t = (stem ++ ".pdf")%string.
Proof.
  destruct t as [[id date] n]. unfold name_of.
  exists (id ++ "_" ++ date ++ "_audit_" ++ str n)%string.
  now rewrite !append_assoc.
Qed.

Lemma join_cases (b : string) :
  os_path_join DOWNLOADS_DIR b = b
  \/ os_path_join DOWNLOADS_DIR b = ("..../" ++ b)%string.
Proof.
  unfold os_path_join, DOWNLOADS_DIR.
  destruct b as [|c rest]; [right; reflexivity|].
  destruct c as [[] [] [] [] [] [] [] []]; (left; reflexivity) || (right; reflexivity).
Qed.

Lemma path_of_pdf (t : triple) : exists stem, path_of t = (stem ++ ".pdf")%string.
Proof.
  destruct (name_of_pdf t) as [stem H].
  unfold path_of. destruct (join_cases (name_of t)) as [-> | ->]; rewrite H.
  - now exists stem.
  - exists ("..../" ++ stem)%string. now rewrite append_assoc.
Qed.

(** ** The manifest as a table *)

Lemma first_seen_known (seen l : list string) :
  forallb (fun x => mem x seen) l = true -> first_seen seen l = [].
Proof.
  induction l as [|x l IH]; simpl; [reflexivity|].
  intros H. apply andb_prop in H. destruct H as [Hx Hl].
  rewrite Hx. auto.
Qed.

Lemma columns_of_entries (e : entry) (log : list entry) :
  columns (pd_DataFrame (e :: log))
  = ["Prisma ID"; "License Start Date"; "File Type"; "Filename"]%string.
Proof.
  unfold pd_DataFrame. simpl.
  do 4 f_equal. apply first_seen_known.
  induction log as [|e' log IH]; [reflexivity|exact IH].
Qed.

Lemma manifest_of_entries (e : entry) (log : list entry) :
  String.prefix header_row (to_csv_text (pd_DataFrame (e :: log))) = true.
Proof.
  unfold to_csv_text. rewrite columns_of_entries.
  change (csv_line ["Prisma ID"; "License Start Date"; "File Type"; "Filename"]%string)
    with header_row.
  apply prefix_append.
Qed.

Section Facts.

Context {W : Type} (B : Playwright W).

Lemma download_one_spec id d j el (s : state W) :
  let o := download_one B id d j el s in
  exists ns,
    (ns = [] \/ (ns = [j + 1] /\ res o = Ok tt))
    /\ download_log (final o)
       = download_log s ++ map (fun n => entry_of (id, strftime d, n)) ns
    /\ saved_paths (emitted o) = map (fun n => path_of (id, strftime d, n)) ns
    /\ forallb retrieval (emitted o) = true.
Proof.
  unfold download_one, download_attempt, try_except, bind, call, print, append.
  crunch.
  all: try (exists []; simpl; rewrite ?app_nil_r; auto; fail).
  exists [j + 1]; simpl; auto.
Qed.

(** The loop of line 148 appends one entry per file saved, and nothing else;
    the indices it uses are distinct and count from [j + 1]. *)
Lemma downloads_spec id d els : forall j (s : state W),
  let o := for_enumerate j els (download_one B id d) s in
  exists ns,
    download_log (final o)
    = download_log s ++ map (fun n => entry_of (id, strftime d, n)) ns
    /\ saved_paths (emitted o) = map (fun n => path_of (id, strftime d, n)) ns
    /\ Forall (fun n => j < n <= j + List.length els) ns
    /\ NoDup ns
    /\ forallb retrieval (emitted o) = true.
Proof.
  induction els as [|el els IH]; intros j s; simpl.
  - exists []; simpl; rewrite app_nil_r; repeat split; constructor.
  - unfold bind.
    destruct (download_one_spec id d j el s) as (n1 & Hn1 & Hlog1 & Hsav1 & Hev1).
    destruct (download_one B id d j el s) as [r1 s1 ev1]; simpl in *.
    destruct r1 as [[]|e].
    + specialize (IH (S j) s1); simpl in IH.
      destruct IH as (n2 & Hlog2 & Hsav2 & Hrange & Hnodup & Hev2).
      destruct (for_enumerate (S j) els (download_one B id d) s1)
        as [r2 s2 ev2]; simpl in *.
      exists (n1 ++ n2).
      rewrite saved_paths_app, forallb_app, !map_app, app_assoc.
      rewrite Hlog2, Hlog1, Hsav1, Hsav2, Hev1, Hev2.
      repeat split; auto.
      * apply Forall_app; split.
        -- destruct Hn1 as [-> | [-> _]]; repeat constructor; lia.
        -- eapply Forall_impl; [|exact Hrange]. simpl; intros; lia.
      * destruct Hn1 as [-> | [-> _]]; [exact Hnodup|].
        simpl. constructor; [|exact Hnodup].
        intros Hin. rewrite Forall_forall in Hrange.
        apply Hrange in Hin. lia.
    + exists n1. repeat split; auto.
      * destruct Hn1 as [-> | [-> Hr]]; [constructor | discriminate Hr].
      * destruct Hn1 as [-> | [-> Hr]]; [constructor | discriminate Hr].
Qed.

Lemma retrieval_within_records (evs : list event) :
  forallb retrieval evs = true -> forallb within_records evs = true.
Proof.
  induction evs as [|e evs IH]; simpl; [reflexivity|].
  intros H. apply andb_prop in H. destruct H as [He Hevs].
  rewrite (IH Hevs), andb_true_r.
  destruct e; try discriminate He; reflexivity.
Qed.

Lemma within_records_no_manifest (evs : list event) :
  forallb within_records evs = true -> manifests evs = [].
Proof.
  induction evs as [|e evs IH]; simpl; [reflexivity|].
  intros H. apply andb_prop in H. destruct H as [He Hevs].
  destruct e; try discriminate He; auto.
Qed.

Lemma within_records_no_to_csv (evs : list event) path text r :
  forallb within_records evs = true -> ~ In (EToCsv path text r) evs.
Proof.
  intros H Hin. rewrite forallb_forall in H.
  apply H in Hin. discriminate Hin.
Qed.

(** Lines 143-164. *)
Lemma audit_reports_spec id d (s : state W) :
  let o := audit_reports B id d s in
  exists ns,
    download_log (final o)
    = download_log s ++ map (fun n => entry_of (id, strftime d, n)) ns
    /\ saved_paths (emitted o) = map (fun n => path_of (id, strftime d, n)) ns
    /\ Forall (fun n => 1 <= n) ns
    /\ NoDup ns
    /\ forallb within_records (emitted o) = true.
Proof.
  unfold audit_reports, bind, call.
  destruct (pw_query_selector_all W B "text=Audit Report" (world s))
    as [[elements|e] w]; simpl.
  2: { exists []; simpl; rewrite app_nil_r; repeat split; constructor. }
  destruct elements as [|el els].
  { exists []; simpl; rewrite app_nil_r; repeat split; constructor. }
  pose proof (downloads_spec id d (el :: els) 0
                (mkState w (download_log s))) as H.
  cbv zeta in H.
  destruct (for_enumerate 0 (el :: els) (download_one B id d)
              (mkState w (download_log s))) as [r2 s2 ev2].
  simpl in H |- *.
  destruct H as (ns & Hlog & Hsav & Hrange & Hnodup & Hev).
  exists ns. repeat split; auto using retrieval_within_records.
  eapply Forall_impl; [|exact Hrange]. simpl; intros; lia.
Qed.

Local Arguments Nat.ltb : simpl never.
Local Arguments nth_error : simpl never.
Local Arguments List.length : simpl never.
Local Arguments String.eqb : simpl never.

Ltac nothing_saved :=
  exists (@nil nat); simpl; rewrite ?app_nil_r; repeat split; constructor.

Ltac use_audit_reports id d :=
  match goal with
  | E : audit_reports _ _ _ ?s = _ |- _ =>
      let H := fresh "H" in
      pose proof (audit_reports_spec id d s) as H;
      cbv zeta in H; rewrite E in H; simpl in H
  end.

(** Lines 99-168: one turn of the outer loop appends one entry per file
    saved, with distinct indices, and writes no manifest. *)
Lemma loop_body_spec row (s : state W) :
  let o := loop_body B row s in
  exists ns,
    download_log (final o)
    = download_log s ++ map (fun n => entry_of (fst (key row), snd (key row), n)) ns
    /\ saved_paths (emitted o)
       = map (fun n => path_of (fst (key row), snd (key row), n)) ns
    /\ Forall (fun n => 1 <= n) ns
    /\ NoDup ns
    /\ forallb within_records (emitted o) = true.
Proof.
  destruct row as [raw d].
  unfold loop_body, search_and_download, verify_top_row, try_except, bind,
    call, print, key.
  crunch.
  all: try (nothing_saved; fail).
  all: use_audit_reports (strip raw) d.
  all: destruct H as (ns & Hlog & Hsav & Hrange & Hnodup & Hev).
  all: exists ns; simpl; rewrite ?saved_paths_app, ?forallb_app; simpl.
  all: rewrite ?app_nil_r, ?Hev; auto.
Qed.

(** The loop of line 98. *)
Lemma for_each_spec records : forall (s : state W),
  let o := for_each records (loop_body B) s in
  exists nss,
    download_log (final o) = download_log s ++ map entry_of (triples records nss)
    /\ saved_paths (emitted o) = map path_of (triples records nss)
    /\ Forall (Forall (fun n => 1 <= n)) nss
    /\ Forall (@NoDup nat) nss
    /\ forallb within_records (emitted o) = true.
Proof.
  induction records as [|row records IH]; intros s; simpl.
  - exists []; simpl; rewrite app_nil_r; repeat split; constructor.
  - unfold bind.
    destruct (loop_body_spec row s) as (ns & Hlog & Hsav & Hr & Hn & Hm).
    destruct (loop_body B row s) as [r1 s1 ev1]; simpl in *.
    destruct r1 as [[]|e].
    + specialize (IH s1); simpl in IH.
      destruct IH as (nss & Hlog2 & Hsav2 & Hr2 & Hn2 & Hm2).
      destruct (for_each records (loop_body B) s1) as [r2 s2 ev2]; simpl in *.
      exists (ns :: nss); simpl.
      rewrite saved_paths_app, forallb_app, !map_app, !map_map, app_assoc.
      rewrite Hlog2, Hlog, Hsav, Hsav2, Hm, Hm2.
      repeat split; auto.
    + exists [ns]; simpl.
      rewrite ?app_nil_r, ?map_map.
      repeat split; auto.
Qed.

Ltac use_for_each records :=
  match goal with
  | E : for_each records _ ?s = _ |- _ =>
      let H := fresh "H" in
      pose proof (for_each_spec records s) as H;
      cbv zeta in H; rewrite E in H; simpl in H
  end.

Ltac run_script :=
  unfold download_audit_reports, async_with, open_session, save_download_log,
    read_download_log, bind, call, print;
  crunch.

(** Lines 92-176: a run appends one entry per file saved. *)
Lemma run_spec records (s : state W) :
  let o := download_audit_reports B records s in
  exists nss,
    download_log (final o) = download_log s ++ map entry_of (triples records nss)
    /\ saved_paths (emitted o) = map path_of (triples records nss)
    /\ Forall (Forall (fun n => 1 <= n)) nss
    /\ Forall (@NoDup nat) nss.
Proof.
  run_script.
  all: try (exists []; simpl; rewrite ?app_nil_r; repeat split; constructor).
  all: use_for_each records.
  all: destruct H as (nss & Hlog & Hsav & Hrange & Hnodup & Hev).
  all: exists nss; simpl; rewrite ?saved_paths_app; simpl.
  all: rewrite ?app_nil_r; auto.
Qed.

(** A run writes the manifest at most once, and then all of
    [download_log]. *)
Lemma run_manifest records (s : state W) path text r :
  let o := download_audit_reports B records s in
  In (EToCsv path text r) (emitted o) ->
  path = log_path
  /\ text = to_csv_text (pd_DataFrame (download_log (final o))).
Proof.
  run_script.
  all: try use_for_each records.
  all: try destruct H as (nss & Hlog & Hsav & Hrange & Hnodup & Hev).
  all: intros Hin; simpl in Hin |- *; split_in Hin.
  all: try (exfalso; eapply within_records_no_to_csv; eassumption).
  all: inversion Hin; subst; auto.
Qed.

End Facts.

(** ** The candidates of a record, one by one *)

Section Traces.

Context {W : Type} (B : Playwright W).

Lemma candidate_path_eq id d j :
  os_path_join DOWNLOADS_DIR (audit_filename id d j)
  = candidate_path id (strftime d) j.
Proof. reflexivity. Qed.

Lemma log_entry_eq id d j :
  log_entry id d (audit_filename id d j) = entry_of (id, strftime d, j + 1).
Proof. reflexivity. Qed.

(** Lines 149-164: one candidate. *)
Lemma download_one_trace id d j el (s : state W) :
  exists f,
    emitted (download_one B id d j el s) = attempt_trace id (strftime d) j el f
    /\ download_log (final (download_one B id d j el s))
       = download_log s ++ saved_entries id (strftime d) j [f]
    /\ res (download_one B id d j el s) = outcome_of [f].
Proof.
  unfold download_one, download_attempt, try_except, bind, call, print, append.
  rewrite candidate_path_eq, log_entry_eq.
  destruct (pw_click W B el (world s)) as [[[]|e1] w1]; simpl.
  - destruct (pw_expect_download W B 5000 w1) as [[dl|e2] w2]; simpl.
    + destruct (pw_save_as W B dl (candidate_path id (strftime d) j) w2)
        as [[[]|e3] w3]; simpl.
      * exists (Saved dl). simpl. auto.
      * exists (SaveFailed dl e3). destruct e3; simpl; rewrite app_nil_r; auto.
    + exists (NoDownload e2). destruct e2; simpl; rewrite app_nil_r; auto.
  - exists (ClickFailed e1). destruct e1; simpl; rewrite app_nil_r; auto.
Qed.

Lemma candidates_trace_nil id date j els :
  candidates_trace id date j els [] = [].
Proof. now destruct els. Qed.

Lemma saved_entries_cons id date j f fates :
  saved_entries id date j (f :: fates)
  = saved_entries id date j [f] ++ saved_entries id date (S j) fates.
Proof. destruct f; reflexivity. Qed.

(** Lines 148-164: the candidates in order. *)
Lemma downloads_trace id d els : forall j (s : state W),
  exists fates,
    emitted (for_enumerate j els (download_one B id d) s)
    = candidates_trace id (strftime d) j els fates
    /\ runs_through els fates = true
    /\ download_log (final (for_enumerate j els (download_one B id d) s))
       = download_log s ++ saved_entries id (strftime d) j fates
    /\ res (for_enumerate j els (download_one B id d) s) = outcome_of fates.
Proof.
  induction els as [|el els IH]; intros j s.
  - exists []. simpl. rewrite app_nil_r. auto.
  - cbn [for_enumerate]. unfold bind.
    destruct (download_one_trace id d j el s) as (f & Hev & Hlog & Hres).
    destruct (download_one B id d j el s) as [r1 s1 ev1]; cbn [emitted final res] in *.
    cbn [outcome_of] in Hres.
    destruct (passes f) as [e|] eqn:Hpass.
    + subst r1. exists [f]. cbn [candidates_trace runs_through outcome_of].
      rewrite Hpass, candidates_trace_nil, app_nil_r. auto.
    + subst r1. destruct (IH (S j) s1) as (fates & Hev2 & Hrun & Hlog2 & Hres2).
      destruct (for_enumerate (S j) els (download_one B id d) s1)
        as [r2 s2 ev2]; cbn [emitted final res] in *.
      exists (f :: fates). cbn [candidates_trace runs_through outcome_of].
      rewrite Hpass, saved_entries_cons, app_assoc, <- Hlog, <- Hlog2.
      subst. auto.
Qed.

(** Lines 143-164. *)
Lemma audit_reports_trace id d (s : state W) :
  exists r,
    (exists tail, emitted (audit_reports B id d s)
                  = EQueryAll "text=Audit Report" r :: tail
                  /\ existsb asks_for_reports tail = false)
    /\ (forall e, r = Raise e ->
          emitted (audit_reports B id d s) = [EQueryAll "text=Audit Report" r]
          /\ res (audit_reports B id d s) = Raise e
          /\ download_log (final (audit_reports B id d s)) = download_log s)
    /\ (forall elements, r = Ok elements ->
          exists fates,
            emitted (audit_reports B id d s)
            = EQueryAll "text=Audit Report" r
              :: reports_trace id (strftime d) elements fates
            /\ runs_through elements fates = true
            /\ download_log (final (audit_reports B id d s))
               = download_log s ++ saved_entries id (strftime d) 0 fates
            /\ res (audit_reports B id d s) = outcome_of fates).
Proof.
  unfold audit_reports, bind, call.
  destruct (pw_query_selector_all W B "text=Audit Report" (world s))
    as [[elements|e] w]; cbn [emitted final res].
  2: { exists (Raise e). split; [exists []; auto|]. split.
       - intros e' H. injection H as <-. auto.
       - intros els H. discriminate H. }
  exists (Ok elements).
  assert (Hall : exists fates,
             emitted
               (match elements with
                | [] => print ("  No Audit Reports for " ++ id)%string
                | _ :: _ => for_enumerate 0 elements (download_one B id d)
                end (mkState w (download_log s)))
             = reports_trace id (strftime d) elements fates
             /\ runs_through elements fates = true
             /\ download_log
                  (final
                     (match elements with
                      | [] => print ("  No Audit Reports for " ++ id)%string
                      | _ :: _ => for_enumerate 0 elements (download_one B id d)
                      end (mkState w (download_log s))))
                = download_log s ++ saved_entries id (strftime d) 0 fates
             /\ res
                  (match elements with
                   | [] => print ("  No Audit Reports for " ++ id)%string
                   | _ :: _ => for_enumerate 0 elements (download_one B id d)
                   end (mkState w (download_log s)))
                = outcome_of fates).
  { destruct elements as [|el els].
    - exists []. simpl. rewrite app_nil_r. auto.
    - destruct (downloads_trace id d (el :: els) 0 (mkState w (download_log s)))
        as (fates & H1 & H2 & H3 & H4).
      exists fates. auto. }
  destruct Hall as (fates & Hev & Hrun & Hlog & Hres).
  destruct (match elements with
            | [] => print ("  No Audit Reports for " ++ id)%string
            | _ :: _ => for_enumerate 0 elements (download_one B id d)
            end (mkState w (download_log s))) as [r2 s2 ev2];
    cbn [emitted final res] in *.
  assert (Hnone : existsb asks_for_reports ev2 = false).
  { subst ev2. clear. unfold reports_trace.
    destruct elements as [|el els]; [reflexivity|].
    generalize 0 as j. revert fates. generalize (el :: els) as l. clear.
    induction l as [|x l IH]; intros fates j; [reflexivity|].
    destruct fates as [|f fates]; [reflexivity|].
    cbn [candidates_trace]. rewrite existsb_app, IH, orb_false_r.
    destruct f as [dl|dl [m|m]|[m|m]|[m|m]]; reflexivity. }
  split; [exists ev2; split; [reflexivity | exact Hnone]|]. split.
  - intros e H. discriminate H.
  - intros els H. injection H as <-. exists fates. subst. auto.
Qed.

End Traces.

(** ** A record's turn up to its candidates *)

Lemma before_cons (e : event) (l tail : list event) :
  before_reports e = true ->
  (exists before, l = before ++ tail /\ forallb before_reports before = true) ->
  exists before,
    e :: l = before ++ tail /\ forallb before_reports before = true.
Proof.
  intros He (before & -> & Hb). exists (e :: before). simpl.
  now rewrite He, Hb.
Qed.

Lemma before_nil (tail : list event) :
  exists before,
    tail = before ++ tail /\ forallb before_reports before = true.
Proof. now exists []. Qed.

Lemma asked_for_reports (evs : list event) r :
  In (EQueryAll "text=Audit Report" r) evs ->
  existsb asks_for_reports evs = true.
Proof.
  intros H. apply existsb_exists. eexists. split; [exact H | reflexivity].
Qed.

Lemma only_interrupts_end_the_loop (fates : list fate) e :
  outcome_of fates = Raise e -> exists m, e = Interrupt m.
Proof.
  induction fates as [|f fates IH]; [discriminate|].
  cbn [outcome_of]. unfold passes.
  destruct (raised f) as [[msg|m]|]; auto.
  intros H. injection H as <-. eauto.
Qed.

Section Turn.

Context {W : Type} (B : Playwright W).

#[local] Arguments Nat.ltb : simpl never.
#[local] Arguments nth_error : simpl never.
#[local] Arguments List.length : simpl never.
#[local] Arguments String.eqb : simpl never.
#[local] Arguments audit_reports : simpl never.

Ltac reports_facts :=
  match goal with
  | E : audit_reports ?B' ?id ?d ?s' = _ |- _ =>
      let rq := fresh "rq" in
      let tail := fresh "tail" in
      let Hev := fresh "Hev" in
      let Hnone := fresh "Hnone" in
      let Hraise := fresh "Hraise" in
      let Hok := fresh "Hok" in
      destruct (audit_reports_trace B' id d s')
        as (rq & (tail & Hev & Hnone) & Hraise & Hok);
      rewrite E in Hev, Hraise, Hok; simpl in Hev, Hraise, Hok
  end.

(** Lines 99-164: when the query of line 143 returned [elements], the turn
    is what stands before the query, the query, and the candidates in
    order. *)
Lemma turn_trace row (s : state W) elements :
  In (EQueryAll "text=Audit Report" (Ok elements)) (emitted (loop_body B row s)) ->
  exists fates,
    (exists before,
        emitted (loop_body B row s)
        = before
          ++ EQueryAll "text=Audit Report" (Ok elements)
             :: reports_trace (strip (fst row)) (strftime (snd row)) elements fates
        /\ forallb before_reports before = true)
    /\ runs_through elements fates = true
    /\ download_log (final (loop_body B row s))
       = download_log s
         ++ saved_entries (strip (fst row)) (strftime (snd row)) 0 fates
    /\ res (loop_body B row s) = outcome_of fates.
Proof.
  destruct row as [raw d].
  unfold loop_body, search_and_download, verify_top_row, try_except, bind,
    call, print.
  crunch.
  all: intros Hin; simpl in Hin; split_in Hin.
  all: try reports_facts.
  all: match goal with
       | Hev : ?x = EQueryAll _ _ :: _ |- _ => subst x
       end.
  all: destruct Hin as [Hq | Hin];
    [|apply asked_for_reports in Hin; congruence].
  all: injection Hq as ->.
  all: destruct (Hok elements eq_refl) as (fates & Hev & Hrun & Hlog & Hres).
  all: try (symmetry in Hres; apply only_interrupts_end_the_loop in Hres;
            destruct Hres as [m Hm]; discriminate Hm).
  all: exists fates; simpl.
  all: repeat match goal with u : unit |- _ => destruct u end.
  all: split; [|auto].
  all: injection Hev as Hev; rewrite Hev.
  all: repeat (apply before_cons; [reflexivity|]).
  all: apply before_nil.
Qed.

End Turn.

(** ** Reading the candidates' trace *)

Lemma runs_through_cons el els f fates :
  runs_through (el :: els) (f :: fates) = true ->
  (passes f = None /\ runs_through els fates = true)
  \/ ((exists e, passes f = Some e) /\ fates = []).
Proof.
  cbn [runs_through]. destruct (passes f) as [e|].
  - destruct fates; [eauto | discriminate].
  - auto.
Qed.

Lemma first_event_is_the_click id date j el f :
  exists r tail,
    attempt_trace id date j el f = EClick (AuditReport j) el r :: tail.
Proof. destruct f; simpl; eauto. Qed.

Lemma failure_is_printed id date j el f msg :
  raised f = Some (Exception msg) ->
  In (EPrint ("  Download failed for " ++ id ++ ": " ++ msg)%string)
    (attempt_trace id date j el f).
Proof.
  destruct f as [dl|dl e|e|e]; simpl; intros H; try discriminate H;
    injection H as ->; simpl; auto.
Qed.

(** The fate at position [k] belongs to the element at position [k]; its
    trace is part of the loop's, and unless its exception passes the
    handler the next element has a fate too. *)
Lemma candidates_at id date els : forall fates j k f,
  runs_through els fates = true ->
  nth_error fates k = Some f ->
  exists el,
    nth_error els k = Some el
    /\ (forall e, In e (attempt_trace id date (j + k) el f) ->
                  In e (candidates_trace id date j els fates))
    /\ (passes f = None ->
        forall el', nth_error els (S k) = Some el' ->
                    exists f', nth_error fates (S k) = Some f').
Proof.
  induction els as [|el els IH]; intros [|f0 fates] j k f Hrun Hk;
    try discriminate Hrun; try (destruct k; discriminate Hk).
  destruct k as [|k].
  - injection Hk as ->. exists el. rewrite Nat.add_0_r.
    split; [reflexivity|]. split.
    + intros e He. cbn [candidates_trace]. apply in_or_app. now left.
    + intros Hpass el' Hel'.
      destruct (runs_through_cons _ _ _ _ Hrun) as [[_ Hrest] | [[e He] _]];
        [|congruence].
      destruct els as [|x els]; [discriminate Hel'|].
      destruct fates as [|f' fates]; [discriminate Hrest|].
      now exists f'.
  - cbn [nth_error] in Hk |- *.
    destruct (runs_through_cons _ _ _ _ Hrun) as [[_ Hrest] | [_ ->]];
      [|destruct k; discriminate Hk].
    destruct (IH fates (S j) k f Hrest Hk) as (el0 & Hel0 & Hin & Hnext).
    exists el0. split; [exact Hel0|]. split.
    + intros e He. cbn [candidates_trace]. apply in_or_app. right.
      apply Hin. now rewrite Nat.add_succ_comm.
    + exact Hnext.
Qed.

Lemma saved_entries_split id date : forall fates j k,
  saved_entries id date j fates
  = saved_entries id date j (firstn k fates)
    ++ saved_entries id date (j + k) (skipn k fates).
Proof.
  induction fates as [|f fates IH]; intros j k.
  - destruct k; reflexivity.
  - destruct k as [|k].
    + now rewrite Nat.add_0_r.
    + cbn [firstn skipn]. rewrite (saved_entries_cons id date j f fates).
      rewrite (saved_entries_cons id date j f (firstn k fates)).
      rewrite (IH (S j) k), app_assoc, Nat.add_succ_comm. reflexivity.
Qed.



(** ** The files of a run, turn by turn *)

Section Runs.

Context {W : Type} (B : Playwright W).

#[local] Arguments Nat.ltb : simpl never.
#[local] Arguments nth_error : simpl never.
#[local] Arguments List.length : simpl never.
#[local] Arguments String.eqb : simpl never.
#[local] Arguments audit_reports : simpl never.




End Runs.

(** ** Uniqueness of the attachments of a run *)

Lemma triples_keys records : forall nss t,
  In t (triples records nss) -> In (fst t) (map key records).
Proof.
  intros nss; revert records.
  induction nss as [|ns nss IH]; intros records t H; [destruct H|].
  destruct records as [|row records]; [destruct H|].
  simpl in H. apply in_app_or in H. destruct H as [H|H].
  - apply in_map_iff in H. destruct H as (n & <- & _).
    left. reflexivity.
  - right. eauto.
Qed.



(** * The claims *)

(** C1, at the failing inputs: [page.goto] (line 103) and the wait for the
    grid (line 104) stand before the [try] of line 106.  When either times
    out on the first of two records, the exception leaves the loop and the
    function: the second record is not searched for and no manifest is
    written.  The claim has these failures caught at the record and the run
    going on. *)
Theorem locate_timeouts_before_the_try_end_the_run :
  download_audit_reports (scripted navigation_times_out) two_records fresh
  = Out (Raise timeout_error) (mkState (mkMock 1 0 []) [])
      [ESession "start" (Ok tt); ESession "launch" (Ok tt);
       ESession "new_context" (Ok tt); ESession "new_page" (Ok tt);
       EPrint (nl ++ " Searching for PRSM-100...");
       EGoto URL (Raise timeout_error);
       ESession "stop" (Ok tt)]
  /\ download_audit_reports (scripted grid_times_out) two_records fresh
     = Out (Raise timeout_error) (mkState (mkMock 1 0 []) [])
         [ESession "start" (Ok tt); ESession "launch" (Ok tt);
          ESession "new_context" (Ok tt); ESession "new_page" (Ok tt);
          EPrint (nl ++ " Searching for PRSM-100...");
          EGoto URL (Ok tt);
          EWaitFor ".MuiDataGrid-root" (Raise timeout_error);
          ESession "stop" (Ok tt)].
Proof. split; vm_compute; reflexivity. Qed.

(** C2: in every run, against every site, the entries appended to
    [download_log] correspond one to one, in order, to the files [save_as]
    wrote: the entry's Filename joined to the download directory is the path
    saved.  One candidate either saves one file and appends its one entry,
    or saves nothing and appends nothing. *)
Theorem manifest_entry_iff_file_saved {W} (B : Playwright W) :
  (forall records (s : state W),
     exists new,
       download_log (final (download_audit_reports B records s))
       = download_log s ++ new
       /\ map (fun e => os_path_join DOWNLOADS_DIR (Filename e)) new
          = saved_paths (emitted (download_audit_reports B records s)))
  /\ (forall id d j el (s : state W),
        let o := download_one B id d j el s in
        let filename := audit_filename id d j in
        (saved_paths (emitted o) = [os_path_join DOWNLOADS_DIR filename]
         /\ download_log (final o) = download_log s ++ [log_entry id d filename])
        \/ (saved_paths (emitted o) = []
            /\ download_log (final o) = download_log s)).
Proof.
  split.
  - intros records s.
    destruct (run_spec B records s) as (nss & Hlog & Hsav & _).
    exists (map entry_of (triples records nss)). split; [exact Hlog|].
    rewrite Hsav, map_map. apply map_ext. exact path_of_entry.
  - intros id d j el s o filename.
    destruct (download_one_spec B id d j el s)
      as (ns & [-> | [-> _]] & Hlog & Hsav & _).
    + right. simpl in Hlog. rewrite app_nil_r in Hlog. auto.
    + left. auto.
Qed.

(** C10: every entry a run appends, and every path it saves a file under,
    ends in the literal [.pdf]; the site, the download and the name it
    suggests have no say in it. *)
Theorem saved_extension_is_pdf {W} (B : Playwright W) records (s : state W) :
  exists new,
    download_log (final (download_audit_reports B records s))
    = download_log s ++ new
    /\ Forall (fun e => exists stem, Filename e = (stem ++ ".pdf")%string) new
    /\ Forall (fun path => exists stem, path = (stem ++ ".pdf")%string)
         (saved_paths (emitted (download_audit_reports B records s))).
Proof.
  destruct (run_spec B records s) as (nss & Hlog & Hsav & _).
  exists (map entry_of (triples records nss)). split; [exact Hlog|].
  rewrite Hsav. split; apply Forall_map, Forall_forall; intros t _.
  - destruct t as [[id date] n]. exact (name_of_pdf (id, date, n)).
  - exact (path_of_pdf t).
Qed.




(** C4, against the claim as stated: when no record is located the manifest
    is empty, [DataFrame([])] has no columns, and the file written is one
    empty line: the header row is not in it.  The write itself succeeds. *)
Lemma empty_manifest_has_no_header :
  download_audit_reports (scripted nothing_found) [("PRSM-100", april 2)]%string fresh
  = Out (Ok tt) (mkState (mkMock 1 1 [log_path]) [])
      [ESession "start" (Ok tt); ESession "launch" (Ok tt);
       ESession "new_context" (Ok tt); ESession "new_page" (Ok tt);
       EPrint (nl ++ " Searching for PRSM-100...");
       EGoto URL (Ok tt);
       EWaitFor ".MuiDataGrid-root" (Ok tt);
       EWaitFor "input#search" (Ok tt);
       EQuery "input#search" (Ok (Some 1));
       EClick SearchBox 1 (Ok tt);
       EInput "fill" (Ok tt); EInput "type" (Ok tt); EInput "press" (Ok tt);
       EInput "evaluate" (Ok tt);
       ESettle 2000%N (Ok tt);
       EQueryAll ".MuiDataGrid-row" (Ok []);
       EPrint "  No search results for PRSM-100";
       ESession "close" (Ok tt);
       EToCsv log_path nl (Ok tt);
       EPrint (nl ++ " Download log saved to: " ++ log_path);
       ESession "stop" (Ok tt)]%string
  /\ String.index 0 header_row nl = None
  /\ String.prefix header_row nl = false.
Proof. repeat split; vm_compute; reflexivity. Qed.

(** C4, amended: whenever the manifest is written, it is written to
    [download_log.csv] as the CSV text of [download_log]; with at least one
    entry the text starts with the header row
    [Prisma ID,License Start Date,File Type,Filename]; with no entry the
    write is made all the same, of a single empty line without column
    names. *)
Theorem manifest_header_with_entries {W} (B : Playwright W) records
  (s : state W) path text r :
  In (EToCsv path text r) (emitted (download_audit_reports B records s)) ->
  path = log_path
  /\ text = to_csv_text
              (pd_DataFrame
                 (download_log (final (download_audit_reports B records s))))
  /\ (download_log (final (download_audit_reports B records s)) <> [] ->
      String.prefix header_row text = true)
  /\ (download_log (final (download_audit_reports B records s)) = [] ->
      text = nl).
Proof.
  intros Hin. destruct (run_manifest B records s path text r Hin) as [-> ->].
  repeat split.
  - destruct (download_log (final (download_audit_reports B records s)))
      as [|e log]; [intros H; now destruct H|].
    intros _. apply manifest_of_entries.
  - intros ->. reflexivity.
Qed.

Lemma manifest_header_with_entries_witness :
  log_path = log_path
  /\ (header_row
      ++ "PRSM-100,2025-04-02,Audit Report,PRSM-100_2025-04-02_audit_1.pdf"
      ++ nl)%string
     = to_csv_text
         (pd_DataFrame
            (download_log
               (final (download_audit_reports
                         (scripted [found "PRSM-100" [saved]])
                         [("PRSM-100", april 2)]%string fresh))))
  /\ (download_log
        (final (download_audit_reports (scripted [found "PRSM-100" [saved]])
                  [("PRSM-100", april 2)]%string fresh)) <> [] ->
      String.prefix header_row
        (header_row
         ++ "PRSM-100,2025-04-02,Audit Report,PRSM-100_2025-04-02_audit_1.pdf"
         ++ nl)%string = true)
  /\ (download_log
        (final (download_audit_reports (scripted [found "PRSM-100" [saved]])
                  [("PRSM-100", april 2)]%string fresh)) = [] ->
      (header_row
       ++ "PRSM-100,2025-04-02,Audit Report,PRSM-100_2025-04-02_audit_1.pdf"
       ++ nl)%string = nl).
Proof.
  apply (manifest_header_with_entries (scripted [found "PRSM-100" [saved]])
           [("PRSM-100", april 2)]%string fresh log_path _ (Ok tt)).
  vm_compute. repeat ((left; reflexivity) || right).
Defined.

(** C5, against the claim as stated: a [KeyboardInterrupt] while the second
    record's download is awaited passes both [except Exception] handlers and
    ends the function.  The first record's entry is in [download_log], its
    file is on disk, and no manifest is written. *)
Lemma interrupt_leaves_entries_unwritten :
  res (download_audit_reports (scripted interrupted_site) two_records fresh)
  = Raise keyboard_interrupt
  /\ final (download_audit_reports (scripted interrupted_site) two_records fresh)
     = mkState (mkMock 2 10 ["..../PRSM-100_2025-04-02_audit_1.pdf"])
         [entry_of ("PRSM-100", "2025-04-02", 1)]
  /\ existsb writes_manifest
       (emitted (download_audit_reports (scripted interrupted_site) two_records fresh))
     = false.
Proof. repeat split; vm_compute; reflexivity. Qed.

Ltac crunch_in H :=
  repeat (simpl in H;
          match type of H with
          | context [match ?x with _ => _ end] =>
              lazymatch x with
              | context [match _ with _ => _ end] => fail
              | _ => let E := fresh "E" in destruct x eqn:E
              end
          end).

Ltac replay :=
  repeat (simpl;
          match goal with
          | E : ?x = _ |- context [match ?x with _ => _ end] => rewrite E
          end).

(** C5, amended: the manifest is written after the loop over the records
    has ended normally, and only then.  With the session open, if the loop
    raises, the run raises, nothing is written, and the entries gathered so
    far stay in [download_log]; if the loop returns and the browser closes,
    [to_csv] is called with all the entries gathered. *)
Theorem manifest_written_after_the_loop_only {W} (B : Playwright W) records
  (s s0 s1 : state W) ev0 ev1 :
  call (pw_start W B) (ESession "start") s = Out (Ok tt) s0 ev0 ->
  open_session B s0 = Out (Ok tt) s1 ev1 ->
  (forall e,
     res (for_each records (loop_body B) s1) = Raise e ->
     existsb writes_manifest (emitted (download_audit_reports B records s))
     = false
     /\ download_log (final (download_audit_reports B records s))
        = download_log (final (for_each records (loop_body B) s1))
     /\ exists e', res (download_audit_reports B records s) = Raise e')
  /\ (res (for_each records (loop_body B) s1) = Ok tt ->
      forall w,
        pw_close W B (world (final (for_each records (loop_body B) s1)))
        = (Ok tt, w) ->
        exists r,
          In (EToCsv log_path
                (to_csv_text
                   (pd_DataFrame
                      (download_log (final (for_each records (loop_body B) s1)))))
                r)
            (emitted (download_audit_reports B records s))).
Proof.
  intros Hstart Hopen.
  unfold call in Hstart. crunch_in Hstart.
  injection Hstart as Hr <- <-. subst.
  unfold open_session, bind, call in Hopen. crunch_in Hopen; try discriminate Hopen.
  injection Hopen as -> <- <-.
  unfold download_audit_reports, async_with, open_session, bind, call.
  replay.
  pose proof (for_each_spec B records
                {| world := w2; download_log := download_log s |}) as Hloop.
  cbv zeta in Hloop.
  destruct (for_each records (loop_body B)
              {| world := w2; download_log := download_log s |})
    as [rl sl evl].
  simpl in Hloop |- *.
  destruct Hloop as (nss & _ & _ & _ & _ & Hev).
  assert (Hnone : existsb writes_manifest evl = false).
  { clear - Hev. induction evl as [|e evl IH]; [reflexivity|].
    simpl in Hev |- *. apply andb_prop in Hev. destruct Hev as [He Hevl].
    rewrite (IH Hevl). destruct e; try discriminate He; reflexivity. }
  split.
  - intros e ->. simpl.
    destruct (pw_stop W B (world sl)) as [[[]|e'] w'] eqn:Estop; simpl;
      rewrite ?existsb_app, Hnone; simpl; eauto.
  - intros -> wc Hclose. simpl. rewrite Hclose. simpl.
    unfold save_download_log, read_download_log, bind, call, print. simpl.
    destruct (fs_write W B _ _ wc) as [rw ww] eqn:Ewrite.
    exists rw.
    destruct rw as [[]|e]; simpl;
      destruct (pw_stop W B _) as [[[]|e'] w'] eqn:Estop; simpl;
      do 4 right; apply in_or_app; left; apply in_or_app; right;
      right; left; reflexivity.
Qed.

Lemma manifest_written_after_the_loop_only_witness :
  (forall e,
     res (for_each two_records (loop_body (scripted interrupted_site)) fresh)
     = Raise e ->
     existsb writes_manifest
       (emitted (download_audit_reports (scripted interrupted_site) two_records fresh))
     = false
     /\ download_log
          (final (download_audit_reports (scripted interrupted_site) two_records fresh))
        = download_log
            (final (for_each two_records (loop_body (scripted interrupted_site)) fresh))
     /\ exists e',
          res (download_audit_reports (scripted interrupted_site) two_records fresh)
          = Raise e')
  /\ (res (for_each two_records (loop_body (scripted interrupted_site)) fresh)
      = Ok tt ->
      forall w,
        pw_close mock (scripted interrupted_site)
          (world (final (for_each two_records
                           (loop_body (scripted interrupted_site)) fresh)))
        = (Ok tt, w) ->
        exists r,
          In (EToCsv log_path
                (to_csv_text
                   (pd_DataFrame
                      (download_log
                         (final (for_each two_records
                                   (loop_body (scripted interrupted_site)) fresh)))))
                r)
            (emitted (download_audit_reports (scripted interrupted_site)
                        two_records fresh))).
Proof.
  apply (manifest_written_after_the_loop_only (scripted interrupted_site)
           two_records fresh fresh fresh
           [ESession "start" (Ok tt)]
           [ESession "launch" (Ok tt); ESession "new_context" (Ok tt);
            ESession "new_page" (Ok tt)]).
  - reflexivity.
  - reflexivity.
Defined.

(** ** The candidates of one record *)

(** C7: when the query of line 143 returned [elements], the record's turn
    is what stands before the query, the query, and then the candidates in
    display order, every one of them unless an exception that
    [except Exception] lets pass ends the loop.  A candidate whose click,
    download or save raises an [Exception] has its Download failed line
    printed, the candidate after it is clicked all the same, and the entries
    of the candidates before it stay in [download_log]. *)
Theorem attachment_failures_are_isolated {W} (B : Playwright W) row
  (s : state W) elements :
  In (EQueryAll "text=Audit Report" (Ok elements)) (emitted (loop_body B row s)) ->
  exists before fates,
    emitted (loop_body B row s)
    = before
      ++ EQueryAll "text=Audit Report" (Ok elements)
         :: reports_trace (strip (fst row)) (strftime (snd row)) elements fates
    /\ forallb before_reports before = true
    /\ runs_through elements fates = true
    /\ download_log (final (loop_body B row s))
       = download_log s
         ++ saved_entries (strip (fst row)) (strftime (snd row)) 0 fates
    /\ res (loop_body B row s) = outcome_of fates
    /\ forall k f msg,
         nth_error fates k = Some f ->
         raised f = Some (Exception msg) ->
         In (EPrint ("  Download failed for " ++ strip (fst row) ++ ": " ++ msg)%string)
           (emitted (loop_body B row s))
         /\ (forall el',
               nth_error elements (S k) = Some el' ->
               exists r,
                 In (EClick (AuditReport (S k)) el' r)
                   (emitted (loop_body B row s)))
         /\ exists later,
              download_log (final (loop_body B row s))
              = download_log s
                ++ saved_entries (strip (fst row)) (strftime (snd row)) 0
                     (firstn k fates)
                ++ later.
Proof.
  intros Hin.
  destruct (turn_trace B row s elements Hin)
    as (fates & (before & Hev & Hbefore) & Hrun & Hlog & Hres).
  exists before, fates. repeat split; auto.
  - destruct (candidates_at (strip (fst row)) (strftime (snd row)) elements
                fates 0 k f Hrun H) as (el & Hel & Hpart & _).
    rewrite Hev. apply in_or_app. right. right.
    unfold reports_trace. destruct elements as [|el0 els];
      [destruct k; discriminate Hel|].
    apply Hpart. now apply failure_is_printed.
  - intros el' Hel'.
    destruct (candidates_at (strip (fst row)) (strftime (snd row)) elements
                fates 0 k f Hrun H) as (el & Hel & _ & Hnext).
    assert (Hpass : passes f = None) by (unfold passes; now rewrite H0).
    destruct (Hnext Hpass el' Hel') as [f' Hf'].
    destruct (candidates_at (strip (fst row)) (strftime (snd row)) elements
                fates 0 (S k) f' Hrun Hf') as (el2 & Hel2 & Hpart & _).
    assert (el2 = el') by congruence. subst el2.
    destruct (first_event_is_the_click (strip (fst row)) (strftime (snd row))
                (0 + S k) el' f') as (r & tail & Hfirst).
    exists r. rewrite Hev. apply in_or_app. right. right.
    unfold reports_trace. destruct elements as [|el0 els];
      [destruct k; discriminate Hel|].
    apply Hpart. rewrite Hfirst. now left.
  - rewrite Hlog.
    rewrite (saved_entries_split (strip (fst row)) (strftime (snd row)) fates 0 k).
    eauto.
Qed.

(** ** One record at a time *)

#[local] Arguments Nat.ltb : simpl never.
#[local] Arguments nth_error : simpl never.
#[local] Arguments List.length : simpl never.
#[local] Arguments String.eqb : simpl never.
#[local] Arguments for_enumerate : simpl never.

Ltac run_record :=
  unfold loop_body, search_and_download, verify_top_row, audit_reports,
    try_except, bind, call, print;
  crunch.

Ltac use_downloads :=
  match goal with
  | E : for_enumerate ?j ?els (download_one ?B ?id ?d) ?s = _ |- _ =>
      let H := fresh "Hloop" in
      pose proof (downloads_spec B id d els j s) as H;
      cbv zeta in H; rewrite E in H; simpl in H;
      let ns := fresh "ns" in
      let Hlog := fresh "Hlog" in
      let Hsav := fresh "Hsav" in
      let Hrange := fresh "Hrange" in
      let Hnodup := fresh "Hnodup" in
      let Hev := fresh "Hev" in
      destruct H as (ns & Hlog & Hsav & Hrange & Hnodup & Hev)
  end.

Ltac not_retrieval H :=
  match goal with
  | Hev : forallb retrieval ?evs = true |- _ =>
      match type of H with
      | In _ evs =>
          let X := fresh "X" in
          pose proof (proj1 (forallb_forall _ _) Hev _ H) as X; discriminate X
      end
  end.


(** C3: when the text read from the identifying cell, stripped, differs from
    the target identifier, the record's turn ends normally with the Mismatch
    line printed: the row is not clicked, no download is triggered, no file
    is saved and [download_log] is as before. *)
Theorem mismatch_opens_nothing {W} (B : Playwright W) row (s : state W) h text :
  In (EInnerText h (Ok text)) (emitted (loop_body B row s)) ->
  strip text <> strip (fst row) ->
  res (loop_body B row s) = Ok tt
  /\ download_log (final (loop_body B row s)) = download_log s
  /\ existsb opens_row (emitted (loop_body B row s)) = false
  /\ existsb triggers_download (emitted (loop_body B row s)) = false
  /\ saved_paths (emitted (loop_body B row s)) = []
  /\ In (EPrint ("  Mismatch " ++ em_dash ++ " skipping " ++ strip (fst row))%string)
       (emitted (loop_body B row s)).
Proof.
  destruct row as [raw d].
  run_record.
  all: intros Hin Hneq; simpl in Hin; split_in Hin.
  all: try use_downloads.
  all: try not_retrieval Hin.
  all: try (injection Hin as -> ->).
  all: try match goal with
         | E : negb (String.eqb _ _) = false |- _ =>
             apply negb_false_iff, String.eqb_eq in E; contradiction
         end.
  all: simpl; repeat split; auto 20.
Qed.

(** C8: when the detail view shows no Audit Report element, the record's
    turn ends normally with the No Audit Reports line printed: no download
    is triggered, no file saved, [download_log] is as before, and the loop
    goes on with the records after it. *)
Theorem no_audit_reports_is_not_an_error {W} (B : Playwright W) row rest
  (s : state W) :
  In (EQueryAll "text=Audit Report" (Ok [])) (emitted (loop_body B row s)) ->
  res (loop_body B row s) = Ok tt
  /\ download_log (final (loop_body B row s)) = download_log s
  /\ existsb triggers_download (emitted (loop_body B row s)) = false
  /\ saved_paths (emitted (loop_body B row s)) = []
  /\ In (EPrint ("  No Audit Reports for " ++ strip (fst row))%string)
       (emitted (loop_body B row s))
  /\ for_each (row :: rest) (loop_body B) s
     = Out (res (for_each rest (loop_body B) (final (loop_body B row s))))
         (final (for_each rest (loop_body B) (final (loop_body B row s))))
         (emitted (loop_body B row s)
          ++ emitted (for_each rest (loop_body B) (final (loop_body B row s)))).
Proof.
  intros Hin.
  assert (H : res (loop_body B row s) = Ok tt
              /\ download_log (final (loop_body B row s)) = download_log s
              /\ existsb triggers_download (emitted (loop_body B row s)) = false
              /\ saved_paths (emitted (loop_body B row s)) = []
              /\ In (EPrint ("  No Audit Reports for " ++ strip (fst row))%string)
                   (emitted (loop_body B row s))).
  { revert Hin. destruct row as [raw d].
    run_record.
    all: intros Hin; simpl in Hin; split_in Hin.
    all: try use_downloads.
    all: try not_retrieval Hin.
    all: try discriminate Hin.
    all: simpl; repeat split; auto 30. }
  destruct H as (Hres & Hlog & Htrig & Hsav & Hprint).
  repeat split; auto.
  simpl. unfold bind.
  destruct (loop_body B row s) as [r1 s1 ev1]; simpl in *. subst r1.
  now destruct (for_each rest (loop_body B) s1).
Qed.

(** C9: the cells are those of the first row the search returned. With
    fewer than six of them the record's turn ends normally with the
    Unexpected row format line printed, nothing read, opened, downloaded or
    logged; with six or more, the one cell whose text is read is the cell at
    index 5. *)
Theorem identifying_cell_is_the_sixth {W} (B : Playwright W) row
  (s : state W) row0 sel cells :
  In (ECells row0 sel (Ok cells)) (emitted (loop_body B row s)) ->
  (exists others,
      In (EQueryAll ".MuiDataGrid-row" (Ok (row0 :: others)))
        (emitted (loop_body B row s)))
  /\ (List.length cells < 6 ->
      res (loop_body B row s) = Ok tt
      /\ download_log (final (loop_body B row s)) = download_log s
      /\ existsb reads_text (emitted (loop_body B row s)) = false
      /\ existsb opens_row (emitted (loop_body B row s)) = false
      /\ existsb triggers_download (emitted (loop_body B row s)) = false
      /\ saved_paths (emitted (loop_body B row s)) = []
      /\ In (EPrint ("  Unexpected row format for " ++ strip (fst row))%string)
           (emitted (loop_body B row s)))
  /\ (6 <= List.length cells ->
      exists cell r,
        nth_error cells 5 = Some cell
        /\ In (EInnerText cell r) (emitted (loop_body B row s))
        /\ forall h r', In (EInnerText h r') (emitted (loop_body B row s)) ->
                        h = cell /\ r' = r).
Proof.
  destruct row as [raw d].
  run_record.
  all: intros Hin; simpl in Hin; split_in Hin.
  all: try use_downloads.
  all: try not_retrieval Hin.
  all: try (injection Hin as -> -> ->).
  all: repeat match goal with
         | E : Nat.ltb _ _ = true |- _ => apply Nat.ltb_lt in E
         | E : Nat.ltb _ _ = false |- _ => apply Nat.ltb_ge in E
         | E : nth_error _ _ = None |- _ => apply nth_error_None in E
         end.
  all: split; [eexists; simpl; auto 20 |].
  all: split; [intros Hlt; try lia; simpl; repeat split; auto 20 |].
  all: intros Hge; try lia.
  all: eexists; eexists; split; [eassumption |].
  all: split; [simpl; auto 30 |].
  all: intros h' r' Hh; simpl in Hh; split_in Hh.
  all: try not_retrieval Hh.
  all: try (injection Hh as -> ->); auto.
Qed.

(** ** The theorems above on scripted sites *)

Lemma attachment_failures_are_isolated_witness :
  exists before fates,
    emitted (loop_body (scripted flaky_site) ("PRSM-100", april 2) fresh)
    = before
      ++ EQueryAll "text=Audit Report" (Ok [10; 11; 12])
         :: reports_trace (strip (fst ("PRSM-100", april 2)))
              (strftime (snd ("PRSM-100", april 2))) [10; 11; 12] fates
    /\ forallb before_reports before = true
    /\ runs_through [10; 11; 12] fates = true
    /\ download_log
         (final (loop_body (scripted flaky_site) ("PRSM-100", april 2) fresh))
       = download_log fresh
         ++ saved_entries (strip (fst ("PRSM-100", april 2)))
              (strftime (snd ("PRSM-100", april 2))) 0 fates
    /\ res (loop_body (scripted flaky_site) ("PRSM-100", april 2) fresh)
       = outcome_of fates
    /\ forall k f msg,
         nth_error fates k = Some f ->
         raised f = Some (Exception msg) ->
         In (EPrint ("  Download failed for "
                     ++ strip (fst ("PRSM-100", april 2)) ++ ": " ++ msg)%string)
           (emitted (loop_body (scripted flaky_site) ("PRSM-100", april 2) fresh))
         /\ (forall el',
               nth_error [10; 11; 12] (S k) = Some el' ->
               exists r,
                 In (EClick (AuditReport (S k)) el' r)
                   (emitted (loop_body (scripted flaky_site)
                               ("PRSM-100", april 2) fresh)))
         /\ exists later,
              download_log
                (final (loop_body (scripted flaky_site)
                          ("PRSM-100", april 2) fresh))
              = download_log fresh
                ++ saved_entries (strip (fst ("PRSM-100", april 2)))
                     (strftime (snd ("PRSM-100", april 2))) 0 (firstn k fates)
                ++ later.
Proof.
  apply (attachment_failures_are_isolated (scripted flaky_site)
           ("PRSM-100", april 2)%string fresh [10; 11; 12]).
  vm_compute. repeat ((left; reflexivity) || right).
Defined.

Lemma mismatch_opens_nothing_witness :
  res (loop_body (scripted [found "PRSM-999" [saved]]) ("PRSM-100", april 2) fresh)
  = Ok tt
  /\ download_log
       (final (loop_body (scripted [found "PRSM-999" [saved]])
                 ("PRSM-100", april 2) fresh))
     = download_log fresh
  /\ existsb opens_row
       (emitted (loop_body (scripted [found "PRSM-999" [saved]])
                   ("PRSM-100", april 2) fresh)) = false
  /\ existsb triggers_download
       (emitted (loop_body (scripted [found "PRSM-999" [saved]])
                   ("PRSM-100", april 2) fresh)) = false
  /\ saved_paths
       (emitted (loop_body (scripted [found "PRSM-999" [saved]])
                   ("PRSM-100", april 2) fresh)) = []
  /\ In (EPrint ("  Mismatch " ++ em_dash ++ " skipping "
                 ++ strip (fst ("PRSM-100", april 2)))%string)
       (emitted (loop_body (scripted [found "PRSM-999" [saved]])
                   ("PRSM-100", april 2) fresh)).
Proof.
  apply (mismatch_opens_nothing (scripted [found "PRSM-999" [saved]])
           ("PRSM-100", april 2)%string fresh 1005 "PRSM-999").
  - vm_compute. repeat ((left; reflexivity) || right).
  - vm_compute. discriminate.
Defined.

Lemma no_audit_reports_is_not_an_error_witness :
  res (loop_body (scripted no_reports_site) ("PRSM-100", april 2) fresh) = Ok tt
  /\ download_log
       (final (loop_body (scripted no_reports_site) ("PRSM-100", april 2) fresh))
     = download_log fresh
  /\ existsb triggers_download
       (emitted (loop_body (scripted no_reports_site) ("PRSM-100", april 2) fresh))
     = false
  /\ saved_paths
       (emitted (loop_body (scripted no_reports_site) ("PRSM-100", april 2) fresh))
     = []
  /\ In (EPrint ("  No Audit Reports for " ++ strip (fst ("PRSM-100", april 2)))%string)
       (emitted (loop_body (scripted no_reports_site) ("PRSM-100", april 2) fresh))
  /\ for_each (("PRSM-100", april 2) :: [("PRSM-200", april 3)])%string
       (loop_body (scripted no_reports_site)) fresh
     = Out
         (res (for_each [("PRSM-200", april 3)]%string
                 (loop_body (scripted no_reports_site))
                 (final (loop_body (scripted no_reports_site)
                           ("PRSM-100", april 2) fresh))))
         (final (for_each [("PRSM-200", april 3)]%string
                   (loop_body (scripted no_reports_site))
                   (final (loop_body (scripted no_reports_site)
                             ("PRSM-100", april 2) fresh))))
         (emitted (loop_body (scripted no_reports_site) ("PRSM-100", april 2) fresh)
          ++ emitted (for_each [("PRSM-200", april 3)]%string
                        (loop_body (scripted no_reports_site))
                        (final (loop_body (scripted no_reports_site)
                                  ("PRSM-100", april 2) fresh)))).
Proof.
  apply (no_audit_reports_is_not_an_error (scripted no_reports_site)
           ("PRSM-100", april 2)%string [("PRSM-200", april 3)]%string fresh).
  vm_compute. repeat ((left; reflexivity) || right).
Defined.

Lemma identifying_cell_is_the_sixth_witness :
  (exists others,
      In (EQueryAll ".MuiDataGrid-row" (Ok (100 :: others)))
        (emitted (loop_body (scripted no_reports_site) ("PRSM-100", april 2) fresh)))
  /\ (List.length (seq 1000 7) < 6 ->
      res (loop_body (scripted no_reports_site) ("PRSM-100", april 2) fresh) = Ok tt
      /\ download_log
           (final (loop_body (scripted no_reports_site) ("PRSM-100", april 2) fresh))
         = download_log fresh
      /\ existsb reads_text
           (emitted (loop_body (scripted no_reports_site) ("PRSM-100", april 2) fresh))
         = false
      /\ existsb opens_row
           (emitted (loop_body (scripted no_reports_site) ("PRSM-100", april 2) fresh))
         = false
      /\ existsb triggers_download
           (emitted (loop_body (scripted no_reports_site) ("PRSM-100", april 2) fresh))
         = false
      /\ saved_paths
           (emitted (loop_body (scripted no_reports_site) ("PRSM-100", april 2) fresh))
         = []
      /\ In (EPrint ("  Unexpected row format for "
                     ++ strip (fst ("PRSM-100", april 2)))%string)
           (emitted (loop_body (scripted no_reports_site) ("PRSM-100", april 2) fresh)))
  /\ (6 <= List.length (seq 1000 7) ->
      exists cell r,
        nth_error (seq 1000 7) 5 = Some cell
        /\ In (EInnerText cell r)
             (emitted (loop_body (scripted no_reports_site) ("PRSM-100", april 2) fresh))
        /\ forall h r',
             In (EInnerText h r')
               (emitted (loop_body (scripted no_reports_site)
                           ("PRSM-100", april 2) fresh)) ->
             h = cell /\ r' = r).
Proof.
  apply (identifying_cell_is_the_sixth (scripted no_reports_site)
           ("PRSM-100", april 2)%string fresh 100 ".MuiDataGrid-cell"
           (seq 1000 7)).
  vm_compute. repeat ((left; reflexivity) || right).
Defined.

(** * The rest of the script *)

(** ** The target records (lines 82-86) *)

Lemma same_row_eq (a b : string * Timestamp) : same_row a b = true <-> a = b.
Proof.
  destruct a as [ia [ya ma da]], b as [ib [yb mb db]].
  unfold same_row; cbn [fst snd year month day].
  rewrite !andb_true_iff, String.eqb_eq, !Nat.eqb_eq.
  split.
  - intros [[[-> ->] ->] ->]. reflexivity.
  - intros H. injection H as -> -> -> ->. auto.
Qed.

Lemma seen_row x seen : existsb (same_row x) seen = true <-> In x seen.
Proof.
  rewrite existsb_exists. split.
  - intros (y & Hy & H). apply same_row_eq in H. now subst.
  - intros H. exists x. split; [exact H | now apply same_row_eq].
Qed.

Lemma drop_duplicates_spec l : forall seen,
  NoDup (drop_duplicates seen l)
  /\ forall x, In x (drop_duplicates seen l) <-> In x l /\ ~ In x seen.
Proof.
  induction l as [|a l IH]; intros seen; cbn [drop_duplicates].
  - split; [constructor|]. intros x. simpl. tauto.
  - destruct (existsb (same_row a) seen) eqn:E.
    + apply seen_row in E. destruct (IH seen) as [Hnd Hin].
      split; [exact Hnd|]. intros x. rewrite Hin. simpl. split.
      * intros [H1 H2]; auto.
      * intros [[<- | H1] H2]; [contradiction | auto].
    + assert (Ha : ~ In a seen).
      { intros H. apply seen_row in H. congruence. }
      destruct (IH (a :: seen)) as [Hnd Hin]. split.
      * constructor; [|exact Hnd]. rewrite Hin. intros [_ H]. apply H. now left.
      * intros x. simpl. rewrite Hin. simpl. split.
        -- intros [<- | [H1 H2]]; auto.
        -- intros [[<- | H1] H2]; auto.
           destruct (same_row a x) eqn:Eax.
           ++ apply same_row_eq in Eax. auto.
           ++ right. split; [exact H1|]. intros [H | H]; [|contradiction].
              apply same_row_eq in H. congruence.
Qed.

Lemma dropna_filtered (df : list csv_row) id d :
  In (id, d) (dropna (filtered_df df))
  <-> In (Some id, Some d) df /\ in_range d = true.
Proof.
  induction df as [|[[i|] [t|]] df IH]; simpl.
  - tauto.
  - destruct (in_range t) eqn:E; simpl; rewrite IH; split.
    + intros [H | H]; [injection H as -> ->; auto | tauto].
    + intros [[H | H] Hr]; [injection H as -> ->; auto | auto].
    + tauto.
    + intros [[H | H] Hr]; [injection H as -> ->; congruence | auto].
  - rewrite IH. split; [tauto|]. intros [[H | H] Hr]; [discriminate H | auto].
  - destruct (in_range t); simpl; rewrite IH; split; try tauto.
    + intros [[H | H] Hr]; [discriminate H | auto].
    + intros [[H | H] Hr]; [discriminate H | auto].
  - rewrite IH. split; [tauto|]. intros [[H | H] Hr]; [discriminate H | auto].
Qed.

Lemma in_range_calendar (d : Timestamp) :
  valid_date d ->
  (in_range d = true <-> year d = 2025 /\ month d = 4 /\ 1 <= day d <= 10).
Proof.
  unfold valid_date, in_range, ordinal, START_DATE, END_DATE.
  cbn [year month day].
  rewrite andb_true_iff, !Nat.leb_le. lia.
Qed.

Lemma target_records_spec (df : list csv_row) :
  NoDup (target_records df)
  /\ (forall id d,
        In (id, d) (target_records df)
        <-> In (Some id, Some d) df /\ in_range d = true).
Proof.
  unfold target_records.
  destruct (drop_duplicates_spec (dropna (filtered_df df)) []) as [Hnd Hin].
  split; [exact Hnd|].
  intros id d. rewrite Hin, dropna_filtered. simpl. tauto.
Qed.

Lemma dropna_of_present (l : list (string * Timestamp)) :
  (forall r, In r l -> in_range (snd r) = true) ->
  dropna (filtered_df (map (fun r => (Some (fst r), Some (snd r))) l)) = l.
Proof.
  unfold filtered_df.
  induction l as [|[i t] l IH]; intros Hl; [reflexivity|].
  pose proof (Hl (i, t) (or_introl eq_refl)) as Hit.
  cbn [map filter fst snd] in Hit |- *. rewrite Hit. cbn [dropna].
  f_equal. apply IH. intros r Hr. apply Hl. now right.
Qed.

Lemma drop_duplicates_of_distinct (l : list (string * Timestamp)) :
  forall seen,
    NoDup l -> (forall x, In x l -> ~ In x seen) ->
    drop_duplicates seen l = l.
Proof.
  induction l as [|a l IH]; intros seen Hl Hs; [reflexivity|].
  cbn [drop_duplicates].
  destruct (existsb (same_row a) seen) eqn:E.
  - apply seen_row in E. exfalso. apply (Hs a); [now left | exact E].
  - f_equal. inversion Hl as [|a' l' Hnotin Hl']; subst.
    apply IH; [exact Hl'|].
    intros x Hx [<- | H]; [contradiction|].
    apply (Hs x); [now right | exact H].
Qed.

(** X1: no row occurs twice among the target records; a row is a target
    record exactly when the frame holds it with both values present and a
    date the mask of lines 83-84 accepts, so rows without an identifier or
    without a date never are; and selecting again from the target records
    changes nothing. *)
Theorem target_records_are_the_distinct_rows_in_range (df : list csv_row) :
  NoDup (target_records df)
  /\ (forall id d,
        In (id, d) (target_records df)
        <-> In (Some id, Some d) df /\ in_range d = true)
  /\ target_records (map (fun r => (Some (fst r), Some (snd r)))
                       (target_records df))
     = target_records df.
Proof.
  destruct (target_records_spec df) as [Hnd Hin].
  split; [exact Hnd|]. split; [exact Hin|].
  unfold target_records at 1. rewrite dropna_of_present.
  - apply drop_duplicates_of_distinct; [exact Hnd | intros x _ []].
  - intros [i t] Hr. apply Hin in Hr. exact (proj2 Hr).
Qed.

(** X2: for a calendar date, being a target record means a licence
    starting between 1 and 10 April 2025, both days included. *)
Theorem target_records_start_in_april (df : list csv_row) id d :
  valid_date d ->
  (In (id, d) (target_records df)
   <-> In (Some id, Some d) df
       /\ year d = 2025 /\ month d = 4 /\ 1 <= day d <= 10).
Proof.
  intros Hd.
  destruct (target_records_spec df) as (_ & Hin).
  rewrite Hin, (in_range_calendar d Hd). tauto.
Qed.

Lemma target_records_start_in_april_witness :
  In ("PRSM-500", april 10) (target_records sample_df)
  <-> In (Some "PRSM-500", Some (april 10)) sample_df
      /\ year (april 10) = 2025 /\ month (april 10) = 4
      /\ 1 <= day (april 10) <= 10.
Proof.
  apply (target_records_start_in_april sample_df "PRSM-500" (april 10)).
  unfold valid_date. simpl. lia.
Defined.

(** ** Emptying the download directory (lines 71-77) *)

Lemma examined_app (a b : list fs_event) :
  examined (a ++ b) = examined a ++ examined b.
Proof.
  induction a as [|e a IH]; simpl; [reflexivity|].
  destruct e; simpl; now rewrite IH.
Qed.

Lemma remove_calls_app (a b : list fs_event) :
  remove_calls (a ++ b) = remove_calls a ++ remove_calls b.
Proof.
  induction a as [|e a IH]; simpl; [reflexivity|].
  destruct e; simpl; now rewrite IH.
Qed.

Section CleaningFacts.

Context {W : Type} (F : FileSystem W).

Lemma remove_if_file_spec filename (w : W) :
  let o := remove_if_file F filename w in
  (exists b, examined (fs_emitted o)
             = [(os_path_join DOWNLOADS_DIR filename, b)])
  /\ remove_calls (fs_emitted o) = map fst (filter snd (examined (fs_emitted o)))
  /\ (forall e, fs_res o = Raise e ->
        exists m, e = Interrupt m
                  /\ In (FsRemove (os_path_join DOWNLOADS_DIR filename) (Raise e))
                       (fs_emitted o))
  /\ (forall path msg,
        In (FsRemove path (Raise (Exception msg))) (fs_emitted o) ->
        fs_res o = Ok tt
        /\ In (FsPrint ("Could not delete " ++ path ++ ": " ++ msg)%string)
             (fs_emitted o)).
Proof.
  unfold remove_if_file.
  destruct (os_path_isfile W F _ w);
    [destruct (os_remove W F _ w) as [[[]|[msg|m]] w1]|];
    cbn [fs_res fs_emitted examined remove_calls filter map fst snd].
  all: split; [eexists; reflexivity|].
  all: split; [reflexivity|].
  all: split.
  all: try (intros e H; discriminate H).
  all: try (intros e H; injection H as <-; eexists; split;
            [reflexivity | simpl; auto]).
  all: intros path msg' H; simpl in H.
  all: repeat (destruct H as [H|H]; [try discriminate H|]); try contradiction.
  injection H as <- <-. split; simpl; auto.
Qed.

Lemma remove_files_spec names : forall (w : W),
  let o := remove_files F names w in
  (exists done rest,
      names = done ++ rest
      /\ map fst (examined (fs_emitted o))
         = map (os_path_join DOWNLOADS_DIR) done
      /\ (fs_res o = Ok tt -> rest = []))
  /\ remove_calls (fs_emitted o) = map fst (filter snd (examined (fs_emitted o)))
  /\ (forall e, fs_res o = Raise e ->
        exists m path, e = Interrupt m
                       /\ In (FsRemove path (Raise e)) (fs_emitted o))
  /\ (forall path msg,
        In (FsRemove path (Raise (Exception msg))) (fs_emitted o) ->
        In (FsPrint ("Could not delete " ++ path ++ ": " ++ msg)%string)
          (fs_emitted o)).
Proof.
  induction names as [|name names IH]; intros w; cbn [remove_files].
  - simpl. repeat split.
    + exists [], []. auto.
    + intros e H. discriminate H.
    + intros path msg [].
  - destruct (remove_if_file_spec name w) as ((b & Hex) & Hrm & Hraise & Hprint).
    destruct (remove_if_file F name w) as [[[]|e] w1 ev1]; cbn [fs_res fs_emitted] in *.
    + destruct (IH w1) as ((done & rest & Hnames & Hdone & Hall) & Hrm2 & Hraise2 & Hprint2).
      destruct (remove_files F names w1) as [r2 w2 ev2]; cbn [fs_res fs_emitted] in *.
      repeat split.
      * exists (name :: done), rest. rewrite examined_app, map_app, Hex, Hdone.
        subst names. auto.
      * rewrite remove_calls_app, examined_app, filter_app, map_app.
        now rewrite Hrm, Hrm2.
      * intros e H. destruct (Hraise2 e H) as (m & path & -> & Hin).
        exists m, path. split; [reflexivity|]. apply in_or_app. now right.
      * intros path msg H. apply in_or_app. apply in_app_or in H.
        destruct H as [H | H]; [left; now apply Hprint | right; now apply Hprint2].
    + repeat split.
      * exists [name], names. rewrite Hex. repeat split. intros H. discriminate H.
      * exact Hrm.
      * intros e' H. injection H as <-.
        destruct (Hraise e eq_refl) as (m & -> & Hin). eauto.
      * intros path msg H. now apply Hprint.
Qed.

End CleaningFacts.

(** X3: the loop looks at the names [os.listdir] returned, in order, each
    joined to the download directory, and calls [os.remove] on exactly those
    [os.path.isfile] accepted; when it ends normally it has looked at every
    name.  What is not a regular file is never removed. *)
Theorem only_listed_regular_files_are_removed {W} (F : FileSystem W) (w w1 : W)
  names :
  os_listdir W F DOWNLOADS_DIR w = (Ok names, w1) ->
  (exists done rest,
      names = done ++ rest
      /\ map fst (examined (fs_emitted (clean_downloads F w)))
         = map (os_path_join DOWNLOADS_DIR) done
      /\ (fs_res (clean_downloads F w) = Ok tt -> rest = []))
  /\ remove_calls (fs_emitted (clean_downloads F w))
     = map fst (filter snd (examined (fs_emitted (clean_downloads F w)))).
Proof.
  intros Hls. unfold clean_downloads. rewrite Hls.
  destruct (remove_files_spec F names w1) as (Hdone & Hrm & _).
  destruct (remove_files F names w1) as [r w2 ev]; cbn [fs_res fs_emitted] in *.
  simpl. split; [exact Hdone | exact Hrm].
Qed.

Lemma only_listed_regular_files_are_removed_witness :
  (exists done rest,
      map de_name some_downloads = done ++ rest
      /\ map fst (examined (fs_emitted (clean_downloads disk some_downloads)))
         = map (os_path_join DOWNLOADS_DIR) done
      /\ (fs_res (clean_downloads disk some_downloads) = Ok tt -> rest = []))
  /\ remove_calls (fs_emitted (clean_downloads disk some_downloads))
     = map fst (filter snd
                  (examined (fs_emitted (clean_downloads disk some_downloads)))).
Proof.
  apply (only_listed_regular_files_are_removed disk some_downloads
           some_downloads (map de_name some_downloads)).
  reflexivity.
Defined.

(** X4: a removal that fails with an [Exception] is printed and the loop goes
    on; the loop is left only by what [except Exception] lets pass, and the
    listing itself, made before the [try], ends the script when it raises. *)
Theorem failed_removals_do_not_stop_the_cleaning {W} (F : FileSystem W) (w : W) :
  (forall e,
     fs_res (clean_downloads F w) = Raise e ->
     In (FsListdir DOWNLOADS_DIR (Raise e)) (fs_emitted (clean_downloads F w))
     \/ exists m path,
          e = Interrupt m
          /\ In (FsRemove path (Raise e)) (fs_emitted (clean_downloads F w)))
  /\ (forall path msg,
        In (FsRemove path (Raise (Exception msg)))
          (fs_emitted (clean_downloads F w)) ->
        In (FsPrint ("Could not delete " ++ path ++ ": " ++ msg)%string)
          (fs_emitted (clean_downloads F w)))
  /\ (forall e w1,
        os_listdir W F DOWNLOADS_DIR w = (Raise e, w1) ->
        clean_downloads F w = FsOut (Raise e) w1 [FsListdir DOWNLOADS_DIR (Raise e)]).
Proof.
  unfold clean_downloads.
  destruct (os_listdir W F DOWNLOADS_DIR w) as [[names|e0] w1].
  - destruct (remove_files_spec F names w1) as (_ & _ & Hraise & Hprint).
    destruct (remove_files F names w1) as [r w2 ev]; cbn [fs_res fs_emitted] in *.
    repeat split.
    + intros e H. right. destruct (Hraise e H) as (m & path & -> & Hin).
      exists m, path. split; [reflexivity | now right].
    + intros path msg [H | H]; [discriminate H | right; now apply Hprint].
    + intros e w' H. discriminate H.
  - simpl. repeat split.
    + intros e H. injection H as <-. left. now left.
    + intros path msg [H | []]. discriminate H.
    + intros e w' H. injection H as <- <-. reflexivity.
Qed.

(** ** Fetching the member list (lines 46-65) *)

Ltac run_csv :=
  unfold download_csv, async_with_value, open_session, export_csv, bind, call,
    print, read, ret;
  crunch.

(** X6: [download_csv] has no handler of its own: it returns a path exactly
    when none of the calls it made raised. *)
Theorem download_csv_returns_iff_no_call_failed {W} (B : Playwright W)
  (X : CsvExport W) (s : state W) :
  (exists path, res (download_csv B X s) = Ok path)
  <-> existsb failed (emitted (download_csv B X s)) = false.
Proof.
  run_csv.
  all: split; [intros [path H]; try discriminate H; reflexivity|].
  all: intros H; simpl in H |- *; try discriminate H; eauto.
Qed.

Lemma download_csv_spec {W} (B : Playwright W) (X : CsvExport W)
  (s : state W) path :
  res (download_csv B X s) = Ok path ->
  (exists d w,
      path = os_path_join DOWNLOADS_DIR_CSV (pw_suggested_filename W X d w)
      /\ In (ESaveAs d path (Ok tt)) (emitted (download_csv B X s)))
  /\ saved_paths (emitted (download_csv B X s)) = [path]
  /\ In (EPrint (" CSV downloaded to: " ++ path)%string)
       (emitted (download_csv B X s))
  /\ In (ESession "close" (Ok tt)) (emitted (download_csv B X s))
  /\ download_log (final (download_csv B X s)) = download_log s.
Proof.
  run_csv.
  all: intros H; try discriminate H; injection H as <-.
  all: repeat match goal with u : unit |- _ => destruct u end.
  all: split; [eexists; eexists; split; [reflexivity | simpl; auto 20]|].
  all: repeat split; simpl; auto 20.
Qed.

(** X7: when [download_csv] returns, the path returned is the name the site
    suggested for the download, joined to the CSV directory; the one file
    saved is saved there, the browser was closed, and [download_log] is as
    before. *)
Theorem download_csv_saves_under_the_suggested_name {W} (B : Playwright W)
  (X : CsvExport W) (s : state W) path :
  res (download_csv B X s) = Ok path ->
  (exists d w,
      path = os_path_join DOWNLOADS_DIR_CSV (pw_suggested_filename W X d w)
      /\ In (ESaveAs d path (Ok tt)) (emitted (download_csv B X s)))
  /\ saved_paths (emitted (download_csv B X s)) = [path]
  /\ In (EPrint (" CSV downloaded to: " ++ path)%string)
       (emitted (download_csv B X s))
  /\ In (ESession "close" (Ok tt)) (emitted (download_csv B X s))
  /\ download_log (final (download_csv B X s)) = download_log s.
Proof. exact (download_csv_spec B X s path). Qed.

Lemma download_csv_saves_under_the_suggested_name_witness :
  (exists d w,
      "..../growers.csv"
      = os_path_join DOWNLOADS_DIR_CSV
          (pw_suggested_filename mock (exporting "growers.csv") d w)
      /\ In (ESaveAs d "..../growers.csv" (Ok tt))
           (emitted (download_csv (scripted [quiet_scene])
                       (exporting "growers.csv") fresh)))
  /\ saved_paths
       (emitted (download_csv (scripted [quiet_scene])
                   (exporting "growers.csv") fresh))
     = ["..../growers.csv"%string]
  /\ In (EPrint (" CSV downloaded to: " ++ "..../growers.csv")%string)
       (emitted (download_csv (scripted [quiet_scene])
                   (exporting "growers.csv") fresh))
  /\ In (ESession "close" (Ok tt))
       (emitted (download_csv (scripted [quiet_scene])
                   (exporting "growers.csv") fresh))
  /\ download_log
       (final (download_csv (scripted [quiet_scene])
                 (exporting "growers.csv") fresh))
     = download_log fresh.
Proof.
  apply (download_csv_saves_under_the_suggested_name (scripted [quiet_scene])
           (exporting "growers.csv") fresh "..../growers.csv").
  reflexivity.
Defined.

(** ** From the member list to the target records (lines 67-86) *)

Lemma listed_names_are_examined {W} (F : FileSystem W) (w : W) names name :
  In (FsListdir DOWNLOADS_DIR (Ok names)) (fs_emitted (clean_downloads F w)) ->
  fs_res (clean_downloads F w) = Ok tt ->
  In name names ->
  exists b,
    In (os_path_join DOWNLOADS_DIR name, b)
      (examined (fs_emitted (clean_downloads F w)))
    /\ (b = true ->
        In (os_path_join DOWNLOADS_DIR name)
          (remove_calls (fs_emitted (clean_downloads F w)))).
Proof.
  unfold clean_downloads.
  destruct (os_listdir W F DOWNLOADS_DIR w) as [[listed|e] w1].
  2: { intros [H | []]. discriminate H. }
  destruct (remove_files_spec F listed w1)
    as ((done & rest & Hnames & Hdone & Hall) & Hrm & _).
  assert (Hnolist : forall dir r,
             ~ In (FsListdir dir r) (fs_emitted (remove_files F listed w1))).
  { intros dir r Hin.
    clear - Hin. revert w1 Hin.
    induction listed as [|n listed IH]; intros w1 Hin; [destruct Hin|].
    cbn [remove_files] in Hin. unfold remove_if_file in Hin.
    destruct (os_path_isfile W F _ w1).
    - destruct (os_remove W F _ w1) as [[[]|[msg|m]] w2].
      + specialize (IH w2). destruct (remove_files F listed w2).
        simpl in Hin. destruct Hin as [H | [H | H]]; try discriminate H.
        now apply IH.
      + specialize (IH w2). destruct (remove_files F listed w2).
        simpl in Hin. destruct Hin as [H | [H | [H | H]]]; try discriminate H.
        now apply IH.
      + simpl in Hin. destruct Hin as [H | [H | []]]; discriminate H.
    - specialize (IH w1). destruct (remove_files F listed w1).
      simpl in Hin. destruct Hin as [H | H]; try discriminate H.
      now apply IH. }
  destruct (remove_files F listed w1) as [r w2 ev]; cbn [fs_res fs_emitted] in *.
  intros [H | H]; [|exfalso; eapply Hnolist; exact H].
  injection H as <-. intros -> Hname.
  cbn [examined remove_calls]. rewrite Hrm.
  rewrite (Hall eq_refl), app_nil_r in Hnames. subst done.
  assert (Hin : In (os_path_join DOWNLOADS_DIR name) (map fst (examined ev))).
  { rewrite Hdone. now apply in_map. }
  apply in_map_iff in Hin. destruct Hin as ([p b] & Hp & Hin).
  cbn [fst] in Hp. subst p.
  exists b. split; [exact Hin|].
  intros ->. apply in_map_iff. exists (os_path_join DOWNLOADS_DIR name, true).
  split; [reflexivity|]. apply filter_In. auto.
Qed.

(** X5: when line 80 is reached, [download_csv] has returned and the
    cleaning loop has ended normally between the two: the path read is the
    path [download_csv] saved the download under, and, the two directories
    of lines 37 and 41 being the same, when the listing of the download
    directory holds the name the download was saved under, that path was
    looked at by the loop, and passed to [os.remove] if it is a regular
    file, before it is read. *)
Theorem cleaning_reaches_the_downloaded_csv {W} (B : Playwright W)
  (X : CsvExport W) (F : FileSystem W)
  (read_csv : string -> W -> result (list csv_row) * W) (s : state W) path r :
  In (ReadCsv path r) (p_steps (prepare_targets B X F read_csv s)) ->
  res (download_csv B X s) = Ok path
  /\ fs_res (clean_downloads F (world (final (download_csv B X s)))) = Ok tt
  /\ p_steps (prepare_targets B X F read_csv s)
     = map Browser (emitted (download_csv B X s))
       ++ map Files
            (fs_emitted (clean_downloads F (world (final (download_csv B X s)))))
       ++ [ReadCsv path r]
  /\ exists d w,
       path = os_path_join DOWNLOADS_DIR_CSV (pw_suggested_filename W X d w)
       /\ In (ESaveAs d path (Ok tt)) (emitted (download_csv B X s))
       /\ forall names,
            In (FsListdir DOWNLOADS_DIR (Ok names))
              (fs_emitted
                 (clean_downloads F (world (final (download_csv B X s))))) ->
            In (pw_suggested_filename W X d w) names ->
            exists b,
              In (path, b)
                (examined
                   (fs_emitted
                      (clean_downloads F (world (final (download_csv B X s))))))
              /\ (b = true ->
                  In path
                    (remove_calls
                       (fs_emitted
                          (clean_downloads F
                             (world (final (download_csv B X s))))))).
Proof.
  unfold prepare_targets.
  pose proof (download_csv_spec B X s) as Hcsv.
  destruct (download_csv B X s) as [[p|e] s1 ev1]; cbn [res final emitted] in *.
  2: { cbn [p_steps]. intros Hin. apply in_map_iff in Hin.
       destruct Hin as (x & Hx & _). discriminate Hx. }
  pose proof (listed_names_are_examined F (world s1)) as Hclean.
  destruct (clean_downloads F (world s1)) as [[[]|e] w2 ev2];
    cbn [fs_res fs_emitted] in *.
  2: { cbn [p_steps]. intros Hin. apply in_app_or in Hin.
       destruct Hin as [Hin | Hin]; apply in_map_iff in Hin;
         destruct Hin as (x & Hx & _); discriminate Hx. }
  destruct (read_csv p w2) as [rr w3]. cbn [p_steps].
  intros Hin. apply in_app_or in Hin. destruct Hin as [Hin | Hin].
  { apply in_map_iff in Hin. destruct Hin as (x & Hx & _). discriminate Hx. }
  apply in_app_or in Hin. destruct Hin as [Hin | Hin].
  { apply in_map_iff in Hin. destruct Hin as (x & Hx & _). discriminate Hx. }
  destruct Hin as [Hin | []]. injection Hin as -> <-.
  destruct (Hcsv path eq_refl) as ((d & w & Hpath & Hsave) & _).
  repeat split; auto.
  exists d, w. repeat split; auto.
  intros names Hls Hname.
  destruct (Hclean names _ Hls eq_refl Hname) as (b & Hex & Hrm).
  exists b. rewrite Hpath. auto.
Qed.

Lemma cleaning_reaches_the_downloaded_csv_witness :
  res (download_csv (office_browser [quiet_scene]) (office_export "growers.csv")
         empty_office)
  = Ok "..../growers.csv"
  /\ fs_res (clean_downloads office_files
               (world (final (download_csv (office_browser [quiet_scene])
                                (office_export "growers.csv") empty_office))))
     = Ok tt
  /\ p_steps (prepare_targets (office_browser [quiet_scene])
                (office_export "growers.csv") office_files office_read_csv
                empty_office)
     = map Browser
         (emitted (download_csv (office_browser [quiet_scene])
                     (office_export "growers.csv") empty_office))
       ++ map Files
            (fs_emitted
               (clean_downloads office_files
                  (world (final (download_csv (office_browser [quiet_scene])
                                   (office_export "growers.csv") empty_office)))))
       ++ [ReadCsv "..../growers.csv"
             (Raise (file_not_found "..../growers.csv"))]
  /\ exists d w,
       "..../growers.csv"
       = os_path_join DOWNLOADS_DIR_CSV
           (pw_suggested_filename office (office_export "growers.csv") d w)
       /\ In (ESaveAs d "..../growers.csv" (Ok tt))
            (emitted (download_csv (office_browser [quiet_scene])
                        (office_export "growers.csv") empty_office))
       /\ forall names,
            In (FsListdir DOWNLOADS_DIR (Ok names))
              (fs_emitted
                 (clean_downloads office_files
                    (world (final (download_csv (office_browser [quiet_scene])
                                     (office_export "growers.csv")
                                     empty_office))))) ->
            In (pw_suggested_filename office (office_export "growers.csv") d w)
              names ->
            exists b,
              In ("..../growers.csv", b)
                (examined
                   (fs_emitted
                      (clean_downloads office_files
                         (world (final (download_csv
                                          (office_browser [quiet_scene])
                                          (office_export "growers.csv")
                                          empty_office))))))
              /\ (b = true ->
                  In "..../growers.csv"
                    (remove_calls
                       (fs_emitted
                          (clean_downloads office_files
                             (world (final (download_csv
                                              (office_browser [quiet_scene])
                                              (office_export "growers.csv")
                                              empty_office))))))).
Proof.
  apply (cleaning_reaches_the_downloaded_csv (office_browser [quiet_scene])
           (office_export "growers.csv") office_files office_read_csv
           empty_office "..../growers.csv"
           (Raise (file_not_found "..../growers.csv"))).
  vm_compute. repeat ((left; reflexivity) || right).
Defined.

(** ** File names and the manifest text *)

(** X8: two candidates of one record never share a file name: the files of a
    record do not overwrite each other. *)
Theorem candidates_of_a_record_get_distinct_names id d j j' :
  j <> j' -> audit_filename id d j <> audit_filename id d j'.
Proof.
  intros Hj H. apply Hj. unfold audit_filename in H.
  do 4 apply append_inv_head in H.
  apply append_inv_tail in H. apply str_inj in H. lia.
Qed.

Lemma candidates_of_a_record_get_distinct_names_witness :
  audit_filename "PRSM-100" (april 2) 0 <> audit_filename "PRSM-100" (april 2) 1.
Proof.
  apply (candidates_of_a_record_get_distinct_names "PRSM-100" (april 2) 0 1).
  discriminate.
Defined.

Lemma rows_of_entries (e : entry) (log : list entry) :
  rows (pd_DataFrame (e :: log))
  = map (fun e' => [Prisma_ID e'; License_Start_Date e'; File_Type e'; Filename e'])
      (e :: log).
Proof.
  pose proof (columns_of_entries e log) as Hc.
  unfold pd_DataFrame in *. cbn [columns rows] in *. rewrite Hc.
  apply map_ext. intros e'. reflexivity.
Qed.

(** X9: with at least one entry, the manifest text is the header row followed
    by one line per entry, in the order the entries were appended, holding
    the entry's identifier, date, file type and file name. *)
Theorem manifest_text_is_one_line_per_entry (e : entry) (log : list entry) :
  to_csv_text (pd_DataFrame (e :: log))
  = (header_row ++ String.concat EmptyString (map entry_line (e :: log)))%string.
Proof.
  unfold to_csv_text. rewrite columns_of_entries, rows_of_entries, map_map.
  reflexivity.
Qed.

(** ** One record's turn, continued *)

Lemma for_enumerate_cons {W X} (body : nat -> X -> M W unit) j x xs :
  for_enumerate j (x :: xs) body
  = bind (body j x) (fun _ => for_enumerate (S j) xs body).
Proof. reflexivity. Qed.

Lemma download_one_lets_interrupts_pass {W} (B : Playwright W) id d j el
  (s : state W) e :
  res (download_one B id d j el s) = Raise e -> exists m, e = Interrupt m.
Proof.
  unfold download_one, download_attempt, try_except, bind, call, print, append.
  crunch; intros H; try discriminate H; injection H as <-; eauto.
Qed.

Lemma downloads_let_interrupts_pass {W} (B : Playwright W) id d els :
  forall j (s : state W) e,
    res (for_enumerate j els (download_one B id d) s) = Raise e ->
    exists m, e = Interrupt m.
Proof.
  induction els as [|el els IH]; intros j s e.
  - intros H. discriminate H.
  - rewrite for_enumerate_cons. unfold bind.
    pose proof (download_one_lets_interrupts_pass B id d j el s) as Hone.
    destruct (download_one B id d j el s) as [[[]|e1] s1 ev1]; simpl in *.
    + specialize (IH (S j) s1 e).
      destruct (for_enumerate (S j) els (download_one B id d) s1); simpl in *.
      exact IH.
    + intros H. injection H as <-. now apply Hone.
Qed.

Ltac use_interrupts :=
  match goal with
  | E : for_enumerate ?j ?els (download_one ?B ?id ?d) ?s = Out (Raise ?e) _ _
    |- _ =>
      let H := fresh "Hint" in
      pose proof (downloads_let_interrupts_pass B id d els j s e) as H;
      rewrite E in H; specialize (H eq_refl)
  end.

Lemma a_turn_raises_what_the_try_lets_pass {W} (B : Playwright W) row
  (s : state W) e :
  res (loop_body B row s) = Raise e ->
  In (EGoto URL (Raise e)) (emitted (loop_body B row s))
  \/ In (EWaitFor ".MuiDataGrid-root" (Raise e)) (emitted (loop_body B row s))
  \/ exists m, e = Interrupt m.
Proof.
  destruct row as [raw d].
  run_record.
  all: intros H; simpl in H; try discriminate H.
  all: try use_interrupts.
  all: injection H as <-.
  all: simpl; eauto 10.
Qed.

(** X10: a record's turn raises only the [AttributeError] of line 99, when
    the identifier read from the frame is not a string and nothing has been
    done yet; what [goto] or the wait for the grid raised, before the [try]
    of line 106; or what [except Exception] lets pass.  Every exception
    derived from [Exception] that the search, the verification and the
    downloads raise is held by the [try]. *)
Theorem exceptions_inside_the_try_are_caught {W} (B : Playwright W)
  (row : cell * Timestamp) (s : state W) e :
  res (loop_turn B row s) = Raise e ->
  (exists type_name,
      fst row = NotText type_name
      /\ e = attribute_error type_name
      /\ emitted (loop_turn B row s) = []
      /\ final (loop_turn B row s) = s)
  \/ In (EGoto URL (Raise e)) (emitted (loop_turn B row s))
  \/ In (EWaitFor ".MuiDataGrid-root" (Raise e)) (emitted (loop_turn B row s))
  \/ exists m, e = Interrupt m.
Proof.
  destruct row as [[raw|type_name] d]; unfold loop_turn; cbn [fst snd].
  - intros H. right. now apply a_turn_raises_what_the_try_lets_pass.
  - intros H. injection H as <-. left. exists type_name. auto.
Qed.

Lemma exceptions_inside_the_try_are_caught_witness :
  (exists type_name,
      fst (NotText "int", april 2) = NotText type_name
      /\ attribute_error "int" = attribute_error type_name
      /\ emitted (loop_turn (scripted both_found) (NotText "int", april 2) fresh)
         = []
      /\ final (loop_turn (scripted both_found) (NotText "int", april 2) fresh)
         = fresh)
  \/ In (EGoto URL (Raise (attribute_error "int")))
       (emitted (loop_turn (scripted both_found) (NotText "int", april 2) fresh))
  \/ In (EWaitFor ".MuiDataGrid-root" (Raise (attribute_error "int")))
       (emitted (loop_turn (scripted both_found) (NotText "int", april 2) fresh))
  \/ exists m, attribute_error "int" = Interrupt m.
Proof.
  apply (exceptions_inside_the_try_are_caught (scripted both_found)
           (NotText "int", april 2) fresh (attribute_error "int")).
  reflexivity.
Defined.

(** X11: when the page has no search box, the record's turn ends normally with
    the Search bar not found line: nothing is clicked or typed, nothing
    saved, and [download_log] is as before. *)
Theorem missing_search_box_skips_the_record {W} (B : Playwright W) row
  (s : state W) :
  In (EQuery "input#search" (Ok None)) (emitted (loop_body B row s)) ->
  res (loop_body B row s) = Ok tt
  /\ download_log (final (loop_body B row s)) = download_log s
  /\ existsb touches_page (emitted (loop_body B row s)) = false
  /\ saved_paths (emitted (loop_body B row s)) = []
  /\ In (EPrint (" Search bar not found for " ++ strip (fst row))%string)
       (emitted (loop_body B row s)).
Proof.
  destruct row as [raw d].
  run_record.
  all: intros Hin; simpl in Hin; split_in Hin.
  all: try use_downloads.
  all: try not_retrieval Hin.
  all: try discriminate Hin.
  all: simpl; repeat split; auto 20.
Qed.

Lemma missing_search_box_skips_the_record_witness :
  res (loop_body (without_search_box nothing_found) ("PRSM-100", april 2) fresh)
  = Ok tt
  /\ download_log
       (final (loop_body (without_search_box nothing_found)
                 ("PRSM-100", april 2) fresh))
     = download_log fresh
  /\ existsb touches_page
       (emitted (loop_body (without_search_box nothing_found)
                   ("PRSM-100", april 2) fresh)) = false
  /\ saved_paths
       (emitted (loop_body (without_search_box nothing_found)
                   ("PRSM-100", april 2) fresh)) = []
  /\ In (EPrint (" Search bar not found for "
                 ++ strip (fst ("PRSM-100", april 2)))%string)
       (emitted (loop_body (without_search_box nothing_found)
                   ("PRSM-100", april 2) fresh)).
Proof.
  apply (missing_search_box_skips_the_record (without_search_box nothing_found)
           ("PRSM-100", april 2)%string fresh).
  vm_compute. repeat ((left; reflexivity) || right).
Defined.

(** X12: when the search returns no row, the record's turn ends normally with
    the No search results line: no cell is read, no row opened, nothing
    downloaded or saved, and [download_log] is as before. *)
Theorem no_search_results_skips_the_record {W} (B : Playwright W) row
  (s : state W) :
  In (EQueryAll ".MuiDataGrid-row" (Ok [])) (emitted (loop_body B row s)) ->
  res (loop_body B row s) = Ok tt
  /\ download_log (final (loop_body B row s)) = download_log s
  /\ existsb reads_text (emitted (loop_body B row s)) = false
  /\ existsb opens_row (emitted (loop_body B row s)) = false
  /\ existsb triggers_download (emitted (loop_body B row s)) = false
  /\ saved_paths (emitted (loop_body B row s)) = []
  /\ In (EPrint ("  No search results for " ++ strip (fst row))%string)
       (emitted (loop_body B row s)).
Proof.
  destruct row as [raw d].
  run_record.
  all: intros Hin; simpl in Hin; split_in Hin.
  all: try use_downloads.
  all: try not_retrieval Hin.
  all: try discriminate Hin.
  all: simpl; repeat split; auto 20.
Qed.

Lemma no_search_results_skips_the_record_witness :
  res (loop_body (scripted nothing_found) ("PRSM-100", april 2) fresh) = Ok tt
  /\ download_log
       (final (loop_body (scripted nothing_found) ("PRSM-100", april 2) fresh))
     = download_log fresh
  /\ existsb reads_text
       (emitted (loop_body (scripted nothing_found) ("PRSM-100", april 2) fresh))
     = false
  /\ existsb opens_row
       (emitted (loop_body (scripted nothing_found) ("PRSM-100", april 2) fresh))
     = false
  /\ existsb triggers_download
       (emitted (loop_body (scripted nothing_found) ("PRSM-100", april 2) fresh))
     = false
  /\ saved_paths
       (emitted (loop_body (scripted nothing_found) ("PRSM-100", april 2) fresh))
     = []
  /\ In (EPrint ("  No search results for "
                 ++ strip (fst ("PRSM-100", april 2)))%string)
       (emitted (loop_body (scripted nothing_found) ("PRSM-100", april 2) fresh)).
Proof.
  apply (no_search_results_skips_the_record (scripted nothing_found)
           ("PRSM-100", april 2)%string fresh).
  vm_compute. repeat ((left; reflexivity) || right).
Defined.

(** X13: when the text of the identifying cell, stripped, is the target
    identifier, the first result row is clicked: blanks around the text or
    around the identifier do not count. *)
Theorem matching_row_is_opened {W} (B : Playwright W) row (s : state W)
  h text :
  In (EInnerText h (Ok text)) (emitted (loop_body B row s)) ->
  strip text = strip (fst row) ->
  exists row0 others r,
    In (EQueryAll ".MuiDataGrid-row" (Ok (row0 :: others)))
      (emitted (loop_body B row s))
    /\ In (EClick FirstRow row0 r) (emitted (loop_body B row s))
    /\ In (EPrint ("  PO ID: " ++ strip (fst row))%string)
         (emitted (loop_body B row s)).
Proof.
  destruct row as [raw d].
  run_record.
  all: intros Hin Heq; simpl in Hin; split_in Hin.
  all: try use_downloads.
  all: try not_retrieval Hin.
  all: try (injection Hin as -> ->).
  all: try match goal with
         | E : negb (String.eqb _ _) = true |- _ =>
             apply negb_true_iff, String.eqb_neq in E; contradiction
         end.
  all: simpl in Heq; rewrite ?Heq.
  all: eexists; eexists; eexists; simpl; repeat split; auto 30.
Qed.

Lemma matching_row_is_opened_witness :
  exists row0 others r,
    In (EQueryAll ".MuiDataGrid-row" (Ok (row0 :: others)))
      (emitted (loop_body (scripted [found " PRSM-100 " [saved]])
                  ("PRSM-100 ", april 2) fresh))
    /\ In (EClick FirstRow row0 r)
         (emitted (loop_body (scripted [found " PRSM-100 " [saved]])
                     ("PRSM-100 ", april 2) fresh))
    /\ In (EPrint ("  PO ID: " ++ strip (fst ("PRSM-100 ", april 2)))%string)
         (emitted (loop_body (scripted [found " PRSM-100 " [saved]])
                     ("PRSM-100 ", april 2) fresh)).
Proof.
  apply (matching_row_is_opened (scripted [found " PRSM-100 " [saved]])
           ("PRSM-100 ", april 2)%string fresh 1005 " PRSM-100 ").
  - vm_compute. repeat ((left; reflexivity) || right).
  - reflexivity.
Defined.

(** ** The run as a whole, continued *)

Ltac run_session :=
  unfold download_audit_reports, async_with, open_session, save_download_log,
    read_download_log, bind, call, print;
  crunch.

Ltac loop_facts B records :=
  match goal with
  | E : for_each records _ ?s = _ |- _ =>
      let H := fresh "Hloop" in
      pose proof (for_each_spec B records s) as H;
      cbv zeta in H; rewrite E in H; simpl in H;
      let nss := fresh "nss" in
      let Hev := fresh "Hev" in
      destruct H as (nss & _ & _ & _ & _ & Hev)
  end.

Ltac not_within H :=
  match goal with
  | Hev : forallb within_records ?evs = true |- _ =>
      match type of H with
      | In _ evs =>
          let X := fresh "X" in
          pose proof (proj1 (forallb_forall _ _) Hev _ H) as X; discriminate X
      end
  end.

(** X14: when entering the Playwright context, launching the browser, or
    opening the context or the page raises, the run raises without turning
    to any record: all it did concerns the session, no manifest is written,
    and [download_log] is as before. *)
Theorem session_failure_ends_the_run_before_any_record {W} (B : Playwright W)
  records (s : state W) what e :
  In (ESession what (Raise e)) (emitted (download_audit_reports B records s)) ->
  In what ["start"; "launch"; "new_context"; "new_page"]%string ->
  (exists e', res (download_audit_reports B records s) = Raise e')
  /\ forallb about_session (emitted (download_audit_reports B records s)) = true
  /\ download_log (final (download_audit_reports B records s)) = download_log s.
Proof.
  run_session.
  all: try loop_facts B records.
  all: intros Hin Hwhat; simpl in Hin; split_in Hin.
  all: try not_within Hin.
  all: try (injection Hin as <- <-; simpl in Hwhat;
            repeat (destruct Hwhat as [Hwhat|Hwhat]; [discriminate Hwhat|]);
            destruct Hwhat).
  all: simpl; repeat split; eauto.
Qed.

Lemma session_failure_ends_the_run_before_any_record_witness :
  (exists e',
      res (download_audit_reports (without_browser both_found) two_records fresh)
      = Raise e')
  /\ forallb about_session
       (emitted (download_audit_reports (without_browser both_found)
                   two_records fresh)) = true
  /\ download_log
       (final (download_audit_reports (without_browser both_found)
                 two_records fresh))
     = download_log fresh.
Proof.
  apply (session_failure_ends_the_run_before_any_record
           (without_browser both_found) two_records fresh "launch" launch_error).
  - vm_compute. repeat ((left; reflexivity) || right).
  - simpl. auto.
Defined.

Lemma navigations_app (a b : list event) :
  navigations (a ++ b) = navigations a + navigations b.
Proof. unfold navigations. now rewrite filter_app, length_app. Qed.

Lemma navigations_cons (e : event) (l : list event) :
  navigations (e :: l) = (if navigates e then 1 else 0) + navigations l.
Proof. unfold navigations. simpl. now destruct (navigates e). Qed.

Lemma retrieval_does_not_navigate (evs : list event) :
  forallb retrieval evs = true -> navigations evs = 0.
Proof.
  unfold navigations.
  induction evs as [|e evs IH]; simpl; [reflexivity|].
  intros H. apply andb_prop in H. destruct H as [He Hevs].
  destruct e; try discriminate He; simpl; auto.
Qed.

Lemma a_turn_navigates_once {W} (B : Playwright W) row (s : state W) :
  navigations (emitted (loop_body B row s)) = 1.
Proof.
  destruct row as [raw d].
  run_record.
  all: try use_downloads.
  all: simpl; rewrite ?navigations_cons, ?navigations_app.
  all: try rewrite (retrieval_does_not_navigate _ Hev).
  all: reflexivity.
Qed.

Lemma loop_navigations {W} (B : Playwright W) records : forall (s : state W),
  navigations (emitted (for_each records (loop_body B) s)) <= List.length records
  /\ (res (for_each records (loop_body B) s) = Ok tt ->
      navigations (emitted (for_each records (loop_body B) s))
      = List.length records).
Proof.
  induction records as [|row records IH]; intros s.
  - split; reflexivity.
  - cbn [for_each]. unfold bind.
    pose proof (a_turn_navigates_once B row s) as Hone.
    destruct (loop_body B row s) as [[[]|e] s1 ev1]; cbn [emitted] in Hone.
    + destruct (IH s1) as [Hle Heq].
      destruct (for_each records (loop_body B) s1) as [r2 s2 ev2].
      cbn [res emitted] in *. rewrite navigations_app, Hone.
      change (List.length (row :: records)) with (S (List.length records)).
      split; [lia|]. intros H. rewrite (Heq H). reflexivity.
    + cbn [res emitted]. rewrite Hone.
      change (List.length (row :: records)) with (S (List.length records)).
      split; [lia|]. intros H. discriminate H.
Qed.

(** X15: a run that returns has loaded the listing page once for every target
    record, has closed the browser, and has written one manifest, to
    [download_log.csv]. *)
Theorem a_run_that_returns_visited_every_record {W} (B : Playwright W)
  records (s : state W) :
  res (download_audit_reports B records s) = Ok tt ->
  navigations (emitted (download_audit_reports B records s))
  = List.length records
  /\ In (ESession "close" (Ok tt)) (emitted (download_audit_reports B records s))
  /\ exists text,
       manifests (emitted (download_audit_reports B records s))
       = [(log_path, text)].
Proof.
  run_session.
  all: intros Hres; simpl in Hres; try discriminate Hres.
  all: repeat match goal with u : unit |- _ => destruct u end.
  all: match goal with
       | E : for_each ?rs _ ?s' = _ |- _ =>
           pose proof (loop_navigations B rs s') as Hnav;
           pose proof (for_each_spec B rs s') as Hloop;
           cbv zeta in Hloop; rewrite E in Hnav, Hloop;
           simpl in Hnav, Hloop;
           destruct Hnav as [_ Hnav]; specialize (Hnav eq_refl);
           destruct Hloop as (nss & _ & _ & _ & _ & Hev)
       end.
  all: split; [|split].
  all: simpl; rewrite ?navigations_cons, ?navigations_app, ?manifests_app, ?Hnav.
  all: rewrite ?navigations_cons, ?(within_records_no_manifest _ Hev).
  all: change (navigations []) with 0.
  all: try reflexivity.
  all: try (simpl; lia).
  all: try (do 4 right; apply in_or_app; left; apply in_or_app; right;
            now left).
  all: eexists; reflexivity.
Qed.

Lemma a_run_that_returns_visited_every_record_witness :
  navigations (emitted (download_audit_reports (scripted both_found)
                          two_records fresh))
  = List.length two_records
  /\ In (ESession "close" (Ok tt))
       (emitted (download_audit_reports (scripted both_found) two_records fresh))
  /\ exists text,
       manifests (emitted (download_audit_reports (scripted both_found)
                             two_records fresh))
       = [(log_path, text)].
Proof.
  apply (a_run_that_returns_visited_every_record (scripted both_found)
           two_records fresh).
  reflexivity.
Defined.

(** ** Where the files go *)

Lemma triples_from_records records : forall nss t,
  In t (triples records nss) ->
  exists row, In row records /\ fst t = key row.
Proof.
  intros nss t H. apply triples_keys in H.
  apply in_map_iff in H. destruct H as (row & Hrow & Hin). eauto.
Qed.

Lemma append_nil_l (s : string) : (EmptyString ++ s)%string = s.
Proof. reflexivity. Qed.

Lemma path_of_cases (id date : string) (n : nat) :
  path_of (id, date, n)
  = if absolute id then name_of (id, date, n)
    else (DOWNLOADS_DIR ++ "/" ++ name_of (id, date, n))%string.
Proof.
  unfold path_of, name_of, os_path_join, DOWNLOADS_DIR.
  destruct id as [|c id]; [reflexivity|].
  rewrite append_cons.
  destruct c as [[] [] [] [] [] [] [] []]; reflexivity.
Qed.

(** X16: every file a run saves is named after one of the target records: it is
    [{id}_{date}_audit_{n}.pdf] for the record's stripped identifier and
    formatted date, inside the download directory, unless the identifier
    starts with a slash: then [os.path.join] drops the directory and the
    file name is the whole path. *)
Theorem saved_files_are_named_after_target_records {W} (B : Playwright W)
  records (s : state W) :
  Forall (fun path =>
            exists row n,
              In row records
              /\ path = if absolute (strip (fst row))
                        then name_of (strip (fst row), strftime (snd row), n)
                        else (DOWNLOADS_DIR ++ "/"
                              ++ name_of (strip (fst row), strftime (snd row), n))%string)
    (saved_paths (emitted (download_audit_reports B records s))).
Proof.
  destruct (run_spec B records s) as (nss & _ & Hsav & _).
  rewrite Hsav. apply Forall_map, Forall_forall. intros [[id date] n] Hin.
  destruct (triples_from_records records nss _ Hin) as (row & Hrow & Hkey).
  exists row, n. split; [exact Hrow|].
  cbn [fst] in Hkey. unfold key in Hkey. injection Hkey as -> ->.
  apply path_of_cases.
Qed.

(** X17: the manifest a call writes lists what [download_log] held before the
    call, followed by one entry per file this call saved: the module-level
    list is never reset, so the entries of an earlier call are written
    again. *)
Theorem earlier_entries_are_written_again {W} (B : Playwright W) records
  (s : state W) path text r :
  In (EToCsv path text r) (emitted (download_audit_reports B records s)) ->
  exists new,
    text = to_csv_text (pd_DataFrame (download_log s ++ new))
    /\ map (fun e => os_path_join DOWNLOADS_DIR (Filename e)) new
       = saved_paths (emitted (download_audit_reports B records s)).
Proof.
  intros Hin.
  destruct (run_manifest B records s path text r Hin) as [_ ->].
  destruct (run_spec B records s) as (nss & Hlog & Hsav & _).
  exists (map entry_of (triples records nss)). rewrite Hlog, Hsav, map_map.
  split; [reflexivity|]. apply map_ext. exact path_of_entry.
Qed.

Lemma earlier_entries_are_written_again_witness :
  exists new,
    (header_row
     ++ "PRSM-001,2025-04-01,Audit Report,PRSM-001_2025-04-01_audit_1.pdf" ++ nl
     ++ "PRSM-100,2025-04-02,Audit Report,PRSM-100_2025-04-02_audit_1.pdf" ++ nl)%string
    = to_csv_text (pd_DataFrame (download_log after_one_call ++ new))
    /\ map (fun e => os_path_join DOWNLOADS_DIR (Filename e)) new
       = saved_paths
           (emitted (download_audit_reports (scripted [found "PRSM-100" [saved]])
                       [("PRSM-100", april 2)]%string after_one_call)).
Proof.
  apply (earlier_entries_are_written_again (scripted [found "PRSM-100" [saved]])
           [("PRSM-100", april 2)]%string after_one_call log_path _ (Ok tt)).
  vm_compute. repeat ((left; reflexivity) || right).
Defined.

(** ** Dates in file names *)

Lemma four_digits (n : nat) :
  n < 100 * 100 ->
  value_of 0 (zfill 4 (str n)) = n /\ String.length (zfill 4 (str n)) = 4.
Proof.
  intros H.
  assert (Hall : forallb (pads_to 4) (seq 0 (100 * 100)) = true)
    by (vm_compute; reflexivity).
  rewrite forallb_forall in Hall.
  assert (Hn : In n (seq 0 (100 * 100))) by (apply in_seq; lia).
  apply Hall in Hn. unfold pads_to in Hn.
  apply andb_prop in Hn. destruct Hn as [Hv Hl].
  apply Nat.eqb_eq in Hv, Hl. auto.
Qed.

Lemma two_digits (n : nat) :
  n < 100 ->
  value_of 0 (zfill 2 (str n)) = n /\ String.length (zfill 2 (str n)) = 2.
Proof.
  intros H.
  assert (Hall : forallb (pads_to 2) (seq 0 100) = true)
    by (vm_compute; reflexivity).
  rewrite forallb_forall in Hall.
  assert (Hn : In n (seq 0 100)) by (apply in_seq; lia).
  apply Hall in Hn. unfold pads_to in Hn.
  apply andb_prop in Hn. destruct Hn as [Hv Hl].
  apply Nat.eqb_eq in Hv, Hl. auto.
Qed.

Lemma append_split (a b : string) : forall a' b',
  String.length a = String.length a' ->
  (a ++ b = a' ++ b')%string -> a = a' /\ b = b'.
Proof.
  induction a as [|x a IH]; intros [|y a'] b' Hlen H;
    try discriminate Hlen.
  - auto.
  - rewrite !append_cons in H. injection H as -> H.
    injection Hlen as Hlen.
    destruct (IH a' b' Hlen H) as [-> ->]. auto.
Qed.

Lemma strftime_length (d : Timestamp) :
  valid_date d -> year d < 100 * 100 -> String.length (strftime d) = 10.
Proof.
  intros [Hm Hd] Hy. unfold strftime.
  rewrite !length_append.
  destruct (four_digits (year d) Hy) as [_ ->].
  destruct (two_digits (month d)) as [_ ->]; [lia|].
  destruct (two_digits (day d)) as [_ ->]; [lia|].
  reflexivity.
Qed.

Lemma strftime_inj (a b : Timestamp) :
  valid_date a -> valid_date b ->
  year a < 100 * 100 -> year b < 100 * 100 ->
  strftime a = strftime b -> a = b.
Proof.
  intros [Hma Hda] [Hmb Hdb] Hya Hyb H. unfold strftime in H.
  destruct (four_digits (year a) Hya) as [Va La].
  destruct (four_digits (year b) Hyb) as [Vb Lb].
  destruct (two_digits (month a)) as [Vma Lma]; [lia|].
  destruct (two_digits (month b)) as [Vmb Lmb]; [lia|].
  destruct (two_digits (day a)) as [Vda Lda]; [lia|].
  destruct (two_digits (day b)) as [Vdb Ldb]; [lia|].
  apply append_split in H; [|congruence]. destruct H as [Hy H].
  apply (append_inv_head "-") in H.
  apply append_split in H; [|congruence]. destruct H as [Hm H].
  apply (append_inv_head "-") in H.
  destruct a as [ya ma da], b as [yb mb db]; cbn [year month day] in *.
  f_equal; congruence.
Qed.

(** X18: for calendar dates with a four-digit year, as every [Timestamp]
    has, the formatted date is ten characters
    long and the file name tells the date and the index apart: two files of
    one identifier have the same name only for the same date and the same
    candidate. *)
Theorem names_of_one_identifier_tell_date_and_index {W} (B : Playwright W)
  id (a b : Timestamp) (j j' : nat) :
  valid_date a -> valid_date b ->
  1000 <= year a < 100 * 100 -> 1000 <= year b < 100 * 100 ->
  String.length (strftime a) = 10
  /\ (audit_filename id a j = audit_filename id b j' -> a = b /\ j = j')
  /\ forall el el' (s s' : state W),
       saved_paths (emitted (download_one B id a j el s)) <> [] ->
       saved_paths (emitted (download_one B id a j el s))
       = saved_paths (emitted (download_one B id b j' el' s')) ->
       a = b /\ j = j'.
Proof.
  intros Ha Hb [_ Hya] [_ Hyb].
  assert (Hname : audit_filename id a j = audit_filename id b j' ->
                  a = b /\ j = j').
  { unfold audit_filename. intros H.
    do 2 apply append_inv_head in H.
    apply append_split in H;
      [|now rewrite !strftime_length]. destruct H as [Hd H].
    apply append_inv_head in H. apply append_inv_tail in H.
    apply str_inj in H.
    split; [now apply strftime_inj | lia]. }
  split; [now apply strftime_length|]. split; [exact Hname|].
  intros el el' s s' Hsome Heq.
  destruct (download_one_spec B id a j el s) as (ns & Hns & _ & Hsav & _).
  destruct (download_one_spec B id b j' el' s') as (ns' & Hns' & _ & Hsav' & _).
  cbv zeta in *. rewrite Hsav in Hsome, Heq. rewrite Hsav' in Heq.
  destruct Hns as [-> | [-> _]]; [now destruct Hsome|].
  destruct Hns' as [-> | [-> _]]; [discriminate Heq|].
  simpl in Heq. injection Heq as Heq.
  apply Hname. rewrite !path_of_cases in Heq.
  change (name_of (id, strftime a, j + 1)) with (audit_filename id a j) in Heq.
  change (name_of (id, strftime b, j' + 1)) with (audit_filename id b j') in Heq.
  destruct (absolute id); [exact Heq|].
  now do 2 apply append_inv_head in Heq.
Qed.

Lemma names_of_one_identifier_tell_date_and_index_witness :
  String.length (strftime (april 2)) = 10
  /\ (audit_filename "PRSM-100" (april 2) 0 = audit_filename "PRSM-100" (april 3) 1 ->
      april 2 = april 3 /\ 0 = 1)
  /\ forall el el' (s s' : state mock),
       saved_paths
         (emitted (download_one (scripted both_found) "PRSM-100" (april 2) 0 el s))
       <> [] ->
       saved_paths
         (emitted (download_one (scripted both_found) "PRSM-100" (april 2) 0 el s))
       = saved_paths
           (emitted (download_one (scripted both_found) "PRSM-100" (april 3) 1 el' s')) ->
       april 2 = april 3 /\ 0 = 1.
Proof.
  apply (names_of_one_identifier_tell_date_and_index (scripted both_found)
           "PRSM-100" (april 2) (april 3) 0 1).
  - unfold valid_date. simpl. lia.
  - unfold valid_date. simpl. lia.
  - simpl. lia.
  - simpl. lia.
Defined.
